(** * Session persistence and provider adapter of azor-chatdog

    A shallow embedding of [files/session_files.py] and of
    [llm/claude_client.py], and the properties of the session store, the
    filename codec, the history normalizer and the Claude adapter.

    Layout: Python values and strings, the storage directory, the embedded
    functions, then the theorems. *)

From Stdlib Require Import Ascii String.
From Stdlib Require Import List NArith ZArith Bool Lia.
Import ListNotations.
Open Scope N_scope.

(** ** Python strings

    A Python [str] is a sequence of Unicode code points; [len], slicing and
    comparison work on code points, so a string is a [list N]. *)

Definition pystr := list N.

(** ASCII literal of the source as a Python string. *)
Definition py (s : string) : pystr := List.map N_of_ascii (list_ascii_of_string s).

Fixpoint pystr_eqb (a b : pystr) : bool :=
  match a, b with
  | [], [] => true
  | x :: a', y :: b' => N.eqb x y && pystr_eqb a' b'
  | _, _ => false
  end.

(** [s.startswith(p)] *)
Fixpoint startswith (s p : pystr) {struct p} : bool :=
  match p, s with
  | [], _ => true
  | x :: p', y :: s' => N.eqb x y && startswith s' p'
  | _ :: _, [] => false
  end.

(** [s.endswith(p)] *)
Definition endswith (s p : pystr) : bool :=
  (length p <=? length s)%nat && pystr_eqb (skipn (length s - length p) s) p.

(** [s[:n]] for a non-negative [n] *)
Definition slice_to (n : nat) (s : pystr) : pystr := firstn n s.

(** [s[:-n]] for a positive [n] *)
Definition slice_drop_last (n : nat) (s : pystr) : pystr := firstn (length s - n) s.

(** [c in s] for a one-character [c] *)
Definition contains_char (c : N) (s : pystr) : bool := existsb (N.eqb c) s.

(** [pat in s] *)
Fixpoint has_substring (s pat : pystr) : bool :=
  startswith s pat ||
  match s with
  | [] => false
  | _ :: t => has_substring t pat
  end.

(** [s.replace(pat, '')] for a non-empty [pat]: occurrences are found left to
    right and do not overlap.  [skip] counts the characters of the occurrence
    that is being removed. *)
Fixpoint remove_all_from (pat : pystr) (skip : nat) (s : pystr) : pystr :=
  match s with
  | [] => []
  | c :: t =>
      match skip with
      | S k => remove_all_from pat k t
      | O => if startswith s pat
             then remove_all_from pat (length pat - 1) t
             else c :: remove_all_from pat 0 t
      end
  end.

Definition replace_with_empty (s pat : pystr) : pystr := remove_all_from pat 0 s.

(** [s.lstrip(...)], [s.rstrip(...)] and [s.strip(...)] over a class of
    characters *)
Fixpoint lstrip (p : N -> bool) (s : pystr) : pystr :=
  match s with
  | [] => []
  | c :: t => if p c then lstrip p t else s
  end.

Fixpoint rstrip (p : N -> bool) (s : pystr) : pystr :=
  match s with
  | [] => []
  | c :: t =>
      match rstrip p t with
      | [] => if p c then [] else [c]
      | r => c :: r
      end
  end.

Definition strip (p : N -> bool) (s : pystr) : pystr := rstrip p (lstrip p s).

(** [s.split(sep)] for a one-character separator: never empty *)
Fixpoint split_char (sep : N) (s : pystr) : list pystr :=
  match s with
  | [] => [[]]
  | c :: t =>
      match split_char sep t with
      | [] => [[]]
      | w :: ws => if N.eqb c sep then [] :: w :: ws else (c :: w) :: ws
      end
  end.

(** [sep.join(parts)] *)
Fixpoint join_with (sep : pystr) (parts : list pystr) : pystr :=
  match parts with
  | [] => []
  | [w] => w
  | w :: ws => w ++ sep ++ join_with sep ws
  end.

(** [<] and [<=] of Python strings: lexicographic on code points *)
Fixpoint pystr_leb (a b : pystr) : bool :=
  match a, b with
  | [], _ => true
  | _ :: _, [] => false
  | x :: a', y :: b' => if N.ltb x y then true else if N.eqb x y then pystr_leb a' b' else false
  end.

(** ** Character classes of [re] and [str.strip]

    On ASCII the classes are fixed: [\w] is [[a-zA-Z0-9_]], and both [\s] and
    the argument-less [strip()] use the whitespace set TAB..CR, FS..US and
    SPACE.  For a [str] pattern Python takes the classes of every other code
    point from the Unicode database ([str.isalnum], [str.isspace]); the
    database is not part of the repository, so it is a parameter. *)

Definition underscore : N := 95.
Definition hyphen : N := 45.

Definition is_underscore (c : N) : bool := N.eqb c underscore.

Definition ascii_alnum (c : N) : bool :=
  ((48 <=? c) && (c <=? 57)) || ((65 <=? c) && (c <=? 90)) || ((97 <=? c) && (c <=? 122)).

Definition ascii_space (c : N) : bool :=
  ((9 <=? c) && (c <=? 13)) || ((28 <=? c) && (c <=? 32)).

(** The class [[A-Za-z0-9_\-]] *)
Definition ascii_name_char (c : N) : bool :=
  ascii_alnum c || N.eqb c underscore || N.eqb c hyphen.

Record unicode_db := {
  uni_alnum : N -> bool;   (* [chr(c).isalnum()] for [c >= 128] *)
  uni_space : N -> bool    (* [chr(c).isspace()] for [c >= 128] *)
}.

(** The database on U+0080..U+017F (Latin-1 Supplement and Latin Extended-A):
    the letters, the superscript digits and the vulgar fractions are
    alphanumeric, NEL and NO-BREAK SPACE are whitespace.  Above U+017F this
    table answers [false] and is not meant to be used. *)
Definition latin_alnum (c : N) : bool :=
  N.eqb c 170 || N.eqb c 178 || N.eqb c 179 || N.eqb c 181 || N.eqb c 185 || N.eqb c 186
  || ((188 <=? c) && (c <=? 190))
  || ((192 <=? c) && (c <=? 214))
  || ((216 <=? c) && (c <=? 246))
  || ((248 <=? c) && (c <=? 383)).

Definition latin_space (c : N) : bool := N.eqb c 133 || N.eqb c 160.

Definition latin_db : unicode_db := {| uni_alnum := latin_alnum; uni_space := latin_space |}.

Section CharClasses.
Variable db : unicode_db.

(** [\w] *)
Definition is_word (c : N) : bool :=
  if c <? 128 then ascii_alnum c || N.eqb c underscore else uni_alnum db c.

(** [\s], and the characters removed by [strip()] *)
Definition is_space (c : N) : bool :=
  if c <? 128 then ascii_space c else uni_space db c.

(** the complement of [[^\w\s\-]] *)
Definition is_kept (c : N) : bool := is_word c || is_space c || N.eqb c hyphen.

(** [re.sub(r'[^\w\s\-]', '', s)] *)
Definition sub_invalid (s : pystr) : pystr := filter is_kept s.
End CharClasses.

(** [re.sub(p+, '_', s)] for a character class [p]: every maximal run of
    characters of the class becomes one underscore. *)
Fixpoint sub_runs (p : N -> bool) (s : pystr) : pystr :=
  match s with
  | [] => []
  | c :: t =>
      if p c then
        match t with
        | [] => [underscore]
        | c' :: _ => if p c' then sub_runs p t else underscore :: sub_runs p t
        end
      else c :: sub_runs p t
  end.

(** ** Filename codec ([generate_friendly_filename], lines 8-41) *)

Section Codec.
Variable db : unicode_db.

(** The five sanitizing statements, lines 21-32; [rename_session_file]
    repeats them at lines 309-313 with the constant 50. *)
Definition sanitize (max_length : nat) (first_prompt : pystr) : pystr :=
  let prompt_part := strip (is_space db) (slice_to max_length first_prompt) in
  let prompt_part := sub_invalid db prompt_part in
  let prompt_part := sub_runs (is_space db) prompt_part in
  let prompt_part := sub_runs is_underscore prompt_part in
  strip is_underscore prompt_part.

(** lines 35-36 *)
Definition friendly_prompt_part (max_length : nat) (first_prompt : pystr) : pystr :=
  match sanitize max_length first_prompt with
  | [] => py "conversation"
  | prompt_part => prompt_part
  end.

(** [session_id[:8]] *)
Definition short_id_of (session_id : pystr) : pystr := slice_to 8 session_id.

Definition generate_friendly_filename_n (first_prompt session_id : pystr) (max_length : nat)
  : pystr :=
  friendly_prompt_part max_length first_prompt ++ py "_" ++ short_id_of session_id.

(** with the default [max_length = 50] *)
Definition generate_friendly_filename (first_prompt session_id : pystr) : pystr :=
  generate_friendly_filename_n first_prompt session_id 50.
End Codec.

(** ** Python values and exceptions

    The functions of the session store probe their arguments at run time
    ([isinstance], [hasattr], [.get] with defaults), and [json.load] returns
    whatever the file holds, so histories and file contents are dynamically
    typed values.  [PDict] is a [dict] with string keys in insertion order,
    [PObj] an object that is not a built-in container and exposes the listed
    data attributes, [PInt] a number. *)

Inductive exn : Type :=
| AttributeError | IndexError | KeyError | TypeError | RuntimeError | OSError
| JSONDecodeError.

Inductive result (A : Type) : Type :=
| Ok (a : A)
| Raise (e : exn).
Arguments Ok {A} a.
Arguments Raise {A} e.

Definition bind {A B : Type} (r : result A) (k : A -> result B) : result B :=
  match r with
  | Ok a => k a
  | Raise e => Raise e
  end.

Notation "x <- r ;; k" := (bind r (fun x => k))
  (at level 61, r at next level, right associativity).

#[local] Set Warnings "-register-all".
Inductive pyval : Type :=
| PNone
| PBool (b : bool)
| PInt (z : Z)
| PStr (s : pystr)
| PList (l : list pyval)
| PDict (d : list (pystr * pyval))
| PObj (attrs : list (pystr * pyval)).

Fixpoint assoc (k : pystr) (d : list (pystr * pyval)) : option pyval :=
  match d with
  | [] => None
  | (k', v) :: d' => if pystr_eqb k k' then Some v else assoc k d'
  end.

(** [bool(v)] *)
Definition truthy (v : pyval) : bool :=
  match v with
  | PNone => false
  | PBool b => b
  | PInt z => negb (Z.eqb z 0)
  | PStr s => match s with [] => false | _ => true end
  | PList l => match l with [] => false | _ => true end
  | PDict d => match d with [] => false | _ => true end
  | PObj _ => true
  end.

(** [isinstance(v, dict)] *)
Definition is_dict (v : pyval) : bool :=
  match v with PDict _ => true | _ => false end.

(** [v.get(key, default)]: only a [dict] has the method; on an object a data
    attribute of that name is not callable. *)
Definition py_get (v : pyval) (key : pystr) (default : pyval) : result pyval :=
  match v with
  | PDict d => Ok (match assoc key d with Some x => x | None => default end)
  | PObj attrs => match assoc (py "get") attrs with
                  | Some _ => Raise TypeError
                  | None => Raise AttributeError
                  end
  | _ => Raise AttributeError
  end.

(** [key in v] for a [dict] *)
Definition dict_has (v : pyval) (key : pystr) : bool :=
  match v with
  | PDict d => match assoc key d with Some _ => true | None => false end
  | _ => false
  end.

(** [v[key]] for a string key *)
Definition py_getitem (v : pyval) (key : pystr) : result pyval :=
  match v with
  | PDict d => match assoc key d with Some x => Ok x | None => Raise KeyError end
  | _ => Raise TypeError
  end.

(** [v[0]] *)
Definition py_first (v : pyval) : result pyval :=
  match v with
  | PList l => match l with x :: _ => Ok x | [] => Raise IndexError end
  | PStr s => match s with c :: _ => Ok (PStr [c]) | [] => Raise IndexError end
  | PDict _ => Raise KeyError
  | _ => Raise TypeError
  end.

(** [v[-1]] *)
Definition py_last (v : pyval) : result pyval :=
  match v with
  | PList l => match rev l with x :: _ => Ok x | [] => Raise IndexError end
  | PStr s => match rev s with c :: _ => Ok (PStr [c]) | [] => Raise IndexError end
  | PDict _ => Raise KeyError
  | _ => Raise TypeError
  end.

(** [v[:8]] *)
Definition py_slice8 (v : pyval) : result pyval :=
  match v with
  | PStr s => Ok (PStr (slice_to 8 s))
  | PList l => Ok (PList (firstn 8 l))
  | _ => Raise TypeError
  end.

(** [len(v)] *)
Definition py_len (v : pyval) : result nat :=
  match v with
  | PStr s => Ok (length s)
  | PList l => Ok (length l)
  | PDict d => Ok (length d)
  | _ => Raise TypeError
  end.

(** the items a [for] loop over [v] visits *)
Definition py_iter (v : pyval) : result (list pyval) :=
  match v with
  | PList l => Ok l
  | PStr s => Ok (map (fun c => PStr [c]) s)
  | PDict d => Ok (map (fun kv => PStr (fst kv)) d)
  | _ => Raise TypeError
  end.

(** [hasattr(v, name)] and [getattr(v, name, default)] for the names the
    store asks for, [role] and [parts], which no built-in type has. *)
Definition py_hasattr (v : pyval) (name : pystr) : bool :=
  match v with
  | PObj attrs => match assoc name attrs with Some _ => true | None => false end
  | _ => false
  end.

Definition py_getattr (v : pyval) (name : pystr) (default : pyval) : pyval :=
  match v with
  | PObj attrs => match assoc name attrs with Some x => x | None => default end
  | _ => default
  end.

(** [v == s] for a string literal [s] *)
Definition py_eq_str (v : pyval) (s : pystr) : bool :=
  match v with PStr t => pystr_eqb t s | _ => false end.

(** [json.dump] accepts the value: it holds no object outside the JSON types. *)
Fixpoint json_serializable (v : pyval) : bool :=
  match v with
  | PObj _ => false
  | PList l => forallb json_serializable l
  | PDict d => forallb (fun kv => json_serializable (snd kv)) d
  | _ => true
  end.

(** a loop body run over the items in order, stopping at the first exception *)
Fixpoint map_result {A B : Type} (f : A -> result B) (l : list A) : result (list B) :=
  match l with
  | [] => Ok []
  | x :: l' => y <- f x ;; ys <- map_result f l' ;; Ok (y :: ys)
  end.

(** ** The storage directory

    [LOG_DIR] is one flat directory.  An entry is a file name with what
    [json.load] makes of the file: [Some v] when the text decodes to the value
    [v], [None] when it does not decode.  The order of [dir_entries] is the
    order in which [os.listdir] reports the names.  Names and session ids are
    single path components. *)

Record storage : Type := {
  dir_present : bool;
  dir_entries : list (pystr * option pyval)
}.

(** the storage and the number of clock readings taken so far *)
Record world : Type := {
  fs : storage;
  ticks : nat
}.

Definition listed_names (st : storage) : list pystr := map fst (dir_entries st).

Fixpoint lookup_file (name : pystr) (entries : list (pystr * option pyval)) : option (option pyval) :=
  match entries with
  | [] => None
  | (n, c) :: rest => if pystr_eqb n name then Some c else lookup_file name rest
  end.

(** the entry [name] gets the content [c]; a new name is added to the listing *)
Fixpoint put_file (name : pystr) (c : option pyval) (entries : list (pystr * option pyval))
  : list (pystr * option pyval) :=
  match entries with
  | [] => [(name, c)]
  | (n, c') :: rest => if pystr_eqb n name then (n, c) :: rest else (n, c') :: put_file name c rest
  end.

Definition delete_file (name : pystr) (entries : list (pystr * option pyval))
  : list (pystr * option pyval) :=
  filter (fun e => negb (pystr_eqb (fst e) name)) entries.

Fixpoint move_file (old new : pystr) (entries : list (pystr * option pyval))
  : list (pystr * option pyval) :=
  match entries with
  | [] => []
  | (n, c) :: rest => if pystr_eqb n old then (new, c) :: rest else (n, c) :: move_file old new rest
  end.

(** one non-ASCII character of a message of the source *)
Definition u (c : N) : pystr := [c].

(** a stable insertion sort on a string key: [sorted(l, key=...)] *)
Section Sorted.
Context {A : Type} (key : A -> pystr).

Fixpoint insert_sorted (x : A) (l : list A) : list A :=
  match l with
  | [] => [x]
  | y :: l' => if pystr_leb (key x) (key y) then x :: y :: l' else y :: insert_sorted x l'
  end.

Fixpoint sorted_by (l : list A) : list A :=
  match l with
  | [] => []
  | x :: l' => insert_sorted x (sorted_by l')
  end.
End Sorted.

(** ** Session store ([files/session_files.py]) *)

Section SessionStore.
(** [files.config.LOG_DIR] *)
Variable LOG_DIR : pystr.
Variable db : unicode_db.
(** [datetime.now().isoformat()] at the n-th reading of the clock *)
Variable isoformat_at : nat -> pystr.
(** [str(e)] *)
Variable exn_text : exn -> pystr.
(** [datetime.fromisoformat(s).strftime('%Y-%m-%d %H:%M')], [None] for a
    [ValueError] *)
Variable format_minute : pystr -> option pystr.

(** [os.path.join(LOG_DIR, filename)] *)
Definition log_path (filename : pystr) : pystr := LOG_DIR ++ py "/" ++ filename.

Definition name_in_log_dir (path : pystr) : option pystr :=
  let d := LOG_DIR ++ py "/" in
  if startswith path d then Some (skipn (length d) path) else None.

(** [os.path.exists(path)] *)
Definition path_exists (st : storage) (path : pystr) : bool :=
  dir_present st &&
  match name_in_log_dir path with
  | Some n => existsb (pystr_eqb n) (listed_names st)
  | None => false
  end.

(** [os.listdir(LOG_DIR)] *)
Definition listdir (st : storage) : result (list pystr) :=
  if dir_present st then Ok (listed_names st) else Raise OSError.

(** [open(path, 'r')] followed by [json.load] *)
Definition json_load (st : storage) (path : pystr) : result pyval :=
  if dir_present st then
    match name_in_log_dir path with
    | Some n => match lookup_file n (dir_entries st) with
                | Some (Some v) => Ok v
                | Some None => Raise JSONDecodeError
                | None => Raise OSError
                end
    | None => Raise OSError
    end
  else Raise OSError.

(** [open(path, 'w')] followed by [json.dump]: the storage afterwards and the
    exception, if any.  A value [json.dump] refuses leaves the file opened and
    truncated, holding text that does not decode. *)
Definition json_dump (st : storage) (path : pystr) (v : pyval) : storage * option exn :=
  if dir_present st then
    match name_in_log_dir path with
    | Some n =>
        if json_serializable v
        then ({| dir_present := true; dir_entries := put_file n (Some v) (dir_entries st) |}, None)
        else ({| dir_present := true; dir_entries := put_file n None (dir_entries st) |}, Some TypeError)
    | None => (st, Some OSError)
    end
  else (st, Some OSError).

(** [os.rename(old, new)]: [None] for an [OSError].  Renaming a file to its
    own path changes nothing; an existing target is replaced. *)
Definition os_rename (st : storage) (old new : pystr) : option storage :=
  if path_exists st old then
    match name_in_log_dir old, name_in_log_dir new with
    | Some o, Some n =>
        if pystr_eqb o n then Some st
        else Some {| dir_present := true;
                     dir_entries := move_file o n (delete_file n (dir_entries st)) |}
    | _, _ => None
    end
  else None.

(** lines 72-97 *)
Definition find_session_file (st : storage) (session_id : pystr) : option pystr :=
  if negb (dir_present st) then None
  else
    let old_format_path := log_path (session_id ++ py "-log.json") in
    if path_exists st old_format_path then Some old_format_path
    else
      let short_id := slice_to 8 session_id in
      match find (fun filename => endswith filename (py "_" ++ short_id ++ py ".json"))
                 (listed_names st) with
      | Some filename => Some (log_path filename)
      | None => None
      end.

(** lines 122-125: one stored turn to the universal shape *)
Definition to_universal_entry (entry : pyval) : result pyval :=
  role <- py_getitem entry (py "role") ;;
  text <- py_getitem entry (py "text") ;;
  Ok (PDict [(py "role", role); (py "parts", PList [PDict [(py "text", text)]])]).

(** lines 120-126 *)
Definition to_universal (log_data : pyval) : result (list pyval) :=
  stored <- py_get log_data (py "history") (PList []) ;;
  entries <- py_iter stored ;;
  map_result to_universal_entry entries.

(** lines 99-128; only [json.JSONDecodeError] is handled *)
Definition load_session_history (st : storage) (session_id : pystr)
  : result (list pyval * option pystr) :=
  match find_session_file st session_id with
  | None =>
      Ok ([], Some (py "Session log file for session '" ++ slice_to 8 session_id
                    ++ py "...' does not exist. Starting new session."))
  | Some log_filename =>
      match json_load st log_filename with
      | Raise JSONDecodeError =>
          Ok ([], Some (py "Cannot decode log file '" ++ log_filename
                        ++ py "'. Starting new session."))
      | Raise e => Raise e
      | Ok log_data =>
          history <- to_universal log_data ;;
          Ok (history, None)
      end
  end.

(** [entry.get('role', '') if isinstance(entry, dict) else getattr(entry, 'role', '')],
    lines 155 and 184 *)
Definition entry_role (entry : pyval) : result pyval :=
  if is_dict entry then py_get entry (py "role") (PStr [])
  else Ok (py_getattr entry (py "role") (PStr [])).

(** the text of the first part of a turn, lines 157-160 and again 176-180 *)
Definition entry_text (content : pyval) : result pyval :=
  if is_dict content && dict_has content (py "parts")
     && match py_getitem content (py "parts") with Ok parts => truthy parts | Raise _ => false end
  then
    parts <- py_getitem content (py "parts") ;;
    part <- py_first parts ;;
    py_get part (py "text") (PStr [])
  else if py_hasattr content (py "parts") then
    part <- py_first (py_getattr content (py "parts") (PList [PDict []])) ;;
    py_get part (py "text") (PStr [])
  else Ok (PStr []).

(** lines 153-161: the text of the first turn whose role is [user], [None]
    when the loop finds none *)
Fixpoint first_user_message (history : list pyval) : result pyval :=
  match history with
  | [] => Ok PNone
  | entry :: rest =>
      role <- entry_role entry ;;
      if py_eq_str role (py "user") then entry_text entry
      else first_user_message rest
  end.

(** the call at line 164 with a value that need not be a [str]: slicing or
    [strip] raises on anything else *)
Definition friendly_name_of (first_user_message : pyval) (session_id : pystr) : result pystr :=
  match first_user_message with
  | PStr s => Ok (generate_friendly_filename db s session_id)
  | PList _ => Raise AttributeError
  | _ => Raise TypeError
  end.

(** lines 173-187: the stored turns, each stamped with the next reading of
    the clock; a turn without text is dropped *)
Fixpoint from_universal (now : nat) (history : list pyval) : result (list pyval * nat) :=
  match history with
  | [] => Ok ([], now)
  | content :: rest =>
      text_part <- entry_text content ;;
      if truthy text_part then
        role <- entry_role content ;;
        r <- from_universal (S now) rest ;;
        Ok (PDict [(py "role", role);
                   (py "timestamp", PStr (isoformat_at now));
                   (py "text", text_part)] :: fst r, snd r)
      else from_universal now rest
  end.

(** lines 189-194 *)
Definition session_record (session_id model_name system_prompt : pystr)
  (json_history : list pyval) : pyval :=
  PDict [(py "session_id", PStr session_id);
         (py "model", PStr model_name);
         (py "system_role", PStr system_prompt);
         (py "history", PList json_history)].

(** lines 148-171 *)
Definition save_target (st : storage) (session_id : pystr) (history : list pyval) : result pystr :=
  match find_session_file st session_id with
  | None =>
      first <- first_user_message history ;;
      if truthy first then
        friendly_name <- friendly_name_of first session_id ;;
        Ok (log_path (friendly_name ++ py ".json"))
      else Ok (log_path (session_id ++ py "-log.json"))
  | Some existing_file => Ok existing_file
  end.

(** lines 130-202 *)
Definition save_session_history (w : world) (session_id : pystr) (history : list pyval)
  (system_prompt model_name : pystr) : result (world * (bool * option pystr)) :=
  if (length history <? 2)%nat then Ok (w, (true, None))
  else
    log_filename <- save_target (fs w) session_id history ;;
    stamped <- from_universal (ticks w) history ;;
    let log_data := session_record session_id model_name system_prompt (fst stamped) in
    match json_dump (fs w) log_filename log_data with
    | (st', None) => Ok ({| fs := st'; ticks := snd stamped |}, (true, None))
    | (st', Some e) =>
        Ok ({| fs := st'; ticks := snd stamped |},
            (false, Some (py "Error writing to file " ++ log_filename ++ py ": " ++ exn_text e)))
    end.

(** lines 210-232: what the collecting loop appends for the file [f] *)
Definition classify_file (files : list pystr) (f : pystr)
  : list (pystr * option pystr * option pystr) :=
  if endswith f (py ".json") && negb (pystr_eqb f (py "azor-wal.json")) then
    if endswith f (py "-log.json") then
      let session_id := replace_with_empty f (py "-log.json") in
      let short_id := slice_to 8 session_id in
      let has_new_format :=
        existsb (fun fn => endswith fn (py "_" ++ short_id ++ py ".json")
                           && negb (endswith fn (py "-log.json"))) files in
      if negb has_new_format then [(f, Some session_id, None)] else []
    else
      let base_name := slice_drop_last 5 f in
      if contains_char underscore base_name then
        let parts := split_char underscore base_name in
        let friendly_name := join_with (py "_") (removelast parts) in
        [(f, None, Some friendly_name)]
      else []
  else [].

Definition session_files (files : list pystr) : list (pystr * option pystr * option pystr) :=
  flat_map (classify_file files) files.

(** [old_session_id or 'unknown'] *)
Definition id_or_unknown (old_session_id : option pystr) : pystr :=
  match old_session_id with
  | Some (c :: s) => c :: s
  | _ => py "unknown"
  end.

Definition no_date : pystr := py "Brak daty".
Definition no_activity : pystr := py "Brak aktywno" ++ u 347 ++ py "ci".

(** lines 237-261: the body of the [try] *)
Definition read_session_entry (st : storage) (filename : pystr)
  (old_session_id friendly_name : option pystr) : result pyval :=
  log_data <- json_load st (log_path filename) ;;
  session_id <- py_get log_data (py "session_id") (PStr (id_or_unknown old_session_id)) ;;
  turns <- py_get log_data (py "history") (PList []) ;;
  history_len <- py_len turns ;;
  turns' <- py_get log_data (py "history") (PList [PDict []]) ;;
  last_turn <- py_last turns' ;;
  last_msg_time_str <- py_get last_turn (py "timestamp") (PStr no_date) ;;
  time_str <- (if negb (py_eq_str last_msg_time_str no_date) then
                 match last_msg_time_str with
                 | PStr s => match format_minute s with
                             | Some t => Ok t
                             | None => Ok no_activity
                             end
                 | _ => Raise TypeError
                 end
               else Ok no_activity) ;;
  display_id <- match friendly_name with
                | Some (c :: s) => Ok (PStr (c :: s))
                | _ => py_slice8 session_id
                end ;;
  Ok (PDict [(py "id", session_id);
             (py "display_name", display_id);
             (py "messages_count", PInt (Z.of_nat history_len));
             (py "last_activity", PStr time_str);
             (py "error", PNone)]).

(** lines 262-268: the entry of a file that could not be read *)
Definition failed_session_entry (filename : pystr) (old_session_id friendly_name : option pystr)
  (e : exn) : pyval :=
  let display_id :=
    match friendly_name with
    | Some (c :: s) => c :: s
    | _ => match old_session_id with
           | Some (c :: s) => slice_to 8 (c :: s)
           | _ => filename
           end
    end in
  PDict [(py "id", PStr (id_or_unknown old_session_id));
         (py "display_name", PStr display_id);
         (py "error", PStr (py "B" ++ u 321 ++ u 260 ++ py "D ODCZYTU PLIKU: " ++ exn_text e))].

Definition session_entry (st : storage) (item : pystr * option pystr * option pystr) : pyval :=
  let '(filename, old_session_id, friendly_name) := item in
  match read_session_entry st filename old_session_id friendly_name with
  | Ok entry => entry
  | Raise e => failed_session_entry filename old_session_id friendly_name e
  end.

(** line 235: the files the second loop reports on, in its order *)
Definition sorted_session_files (files : list pystr)
  : list (pystr * option pystr * option pystr) :=
  sorted_by (fun x => fst (fst x)) (session_files files).

(** lines 204-270: one entry for each of these files *)
Definition list_sessions (st : storage) : result (list pyval) :=
  files <- listdir st ;;
  Ok (map (session_entry st) (sorted_session_files files)).

(** lines 292-332 *)
Definition rename_session_file (st : storage) (session_id new_name : pystr)
  : storage * (bool * option pystr * option pystr) :=
  match find_session_file st session_id with
  | None =>
      (st, (false,
            Some (py "Session file for ID '" ++ slice_to 8 session_id ++ py "...' not found."),
            None))
  | Some old_filepath =>
      match sanitize db 50 new_name with
      | [] =>
          (st, (false,
                Some (py "Nazwa nie mo" ++ u 380 ++ py "e by" ++ u 263 ++ py " pusta po usuni"
                      ++ u 281 ++ py "ciu nieprawid" ++ u 322 ++ py "owych znak" ++ u 243
                      ++ py "w."),
                None))
      | sanitized_name =>
          let short_id := slice_to 8 session_id in
          let new_filename := sanitized_name ++ py "_" ++ short_id ++ py ".json" in
          let new_filepath := log_path new_filename in
          if path_exists st new_filepath && negb (pystr_eqb new_filepath old_filepath) then
            (st, (false,
                  Some (py "Plik o nazwie '" ++ new_filename ++ py "' ju" ++ u 380
                        ++ py " istnieje."),
                  None))
          else
            match os_rename st old_filepath new_filepath with
            | Some st' => (st', (true, None, Some sanitized_name))
            | None =>
                (st, (false,
                      Some (py "B" ++ u 322 ++ u 261 ++ py "d podczas zmiany nazwy pliku: "
                            ++ exn_text OSError),
                      None))
            end
      end
  end.

End SessionStore.

(** ** Claude adapter ([llm/claude_client.py]) *)

(** the keyword arguments of [client.messages.create], lines 60-68 *)
Record api_params : Type := {
  ap_model : pystr;
  ap_messages : list (pystr * pyval);
  ap_max_tokens : Z;
  ap_system : option pystr
}.

(** What the provider call does: it raises, or it returns a response whose
    [content] attribute may be missing and whose blocks may lack [text]. *)
Inductive api_outcome : Type :=
| ApiRaise (e : exn)
| ApiResponse (content : option (list (option pystr))).

(** [ClaudeChatSessionWrapper]; [client] is [None] when the object has no
    [messages.create]. *)
Record chat_session : Type := {
  client : option (api_params -> api_outcome);
  model_name : pystr;
  system_instruction : pystr;
  _history : list pyval
}.

(** [SimpleResponse] *)
Record simple_response : Type := { text : pystr }.

Definition universal_turn (role : pystr) (t : pyval) : pyval :=
  PDict [(py "role", PStr role); (py "parts", PList [PDict [(py "text", t)]])].

Definition err_text : pystr :=
  py "Przepraszam, wyst" ++ u 261 ++ py "pi" ++ u 322 ++ py " b" ++ u 322 ++ u 261
  ++ py "d podczas generowania odpowiedzi Claude.".

(** lines 43-52 *)
Fixpoint build_messages (history : list pyval) : result (list (pystr * pyval)) :=
  match history with
  | [] => Ok []
  | entry :: rest =>
      role <- py_get entry (py "role") PNone ;;
      parts <- py_get entry (py "parts") (PList [PDict []]) ;;
      part <- py_first parts ;;
      text_part <- py_get part (py "text") (PStr []) ;;
      messages <- build_messages rest ;;
      if py_eq_str role (py "user") then Ok ((py "user", text_part) :: messages)
      else if py_eq_str role (py "model") || py_eq_str role (py "assistant")
      then Ok ((py "assistant", text_part) :: messages)
      else Ok messages
  end.

(** lines 60-68 *)
Definition request_of (s : chat_session) (messages : list (pystr * pyval)) : api_params :=
  {| ap_model := model_name s;
     ap_messages := messages;
     ap_max_tokens := 4096;
     ap_system := match system_instruction s with [] => None | i => Some i end |}.

(** lines 76-79 *)
Fixpoint blocks_text (content : list (option pystr)) : pystr :=
  match content with
  | [] => []
  | Some t :: rest => t ++ blocks_text rest
  | None :: rest => blocks_text rest
  end.

(** lines 41-90, the body of the outer [try]: the history and the text on
    success *)
Definition try_send (s : chat_session) (history : list pyval) : result (list pyval * pystr) :=
  messages <- build_messages history ;;
  match client s with
  | Some create =>
      match create (request_of s messages) with
      | ApiRaise e => Raise e
      | ApiResponse (Some (block :: blocks)) =>
          let text_out := blocks_text (block :: blocks) in
          Ok (history ++ [universal_turn (py "model") (PStr text_out)], text_out)
      | ApiResponse _ => Raise RuntimeError
      end
  | None => Raise RuntimeError
  end.

Definition with_history (s : chat_session) (h : list pyval) : chat_session :=
  {| client := client s; model_name := model_name s;
     system_instruction := system_instruction s; _history := h |}.

(** lines 37-96 *)
Definition send_message (s : chat_session) (message : pystr) : chat_session * simple_response :=
  let history := _history s ++ [universal_turn (py "user") (PStr message)] in
  match try_send s history with
  | Ok (history', text_out) => (with_history s history', {| text := text_out |})
  | Raise _ =>
      (with_history s (history ++ [universal_turn (py "model") (PStr err_text)]),
       {| text := err_text |})
  end.

(** line 156: the length of the text of the first part of a turn *)
Definition turn_chars (h : pyval) : result nat :=
  parts <- py_get h (py "parts") (PList [PDict []]) ;;
  part <- py_first parts ;;
  t <- py_get part (py "text") (PStr []) ;;
  py_len t.

(** lines 152-157; [None] is an absent history *)
Definition count_history_tokens (history : option (list pyval)) : result Z :=
  match history with
  | None | Some [] => Ok 0%Z
  | Some h =>
      lens <- map_result turn_chars h ;;
      Ok (Z.of_nat (list_sum lens) / 4)%Z
  end.

(** ** The rest of the session store *)

Section SessionStoreRest.
Variable LOG_DIR : pystr.
Variable exn_text : exn -> pystr.

(** [os.path.basename(path)]: what follows the last slash *)
Definition basename (path : pystr) : pystr := last (split_char 47 path) [].

(** lines 43-70 *)
Definition get_session_display_name (st : storage) (session_id : pystr) : pystr :=
  match find_session_file LOG_DIR st session_id with
  | None | Some [] => slice_to 8 session_id
  | Some session_file =>
      let filename := basename session_file in
      if endswith filename (py "-log.json") then slice_to 8 session_id
      else
        let base_name := slice_drop_last 5 filename in
        if contains_char underscore base_name then
          let parts := split_char underscore base_name in
          join_with (py "_") (removelast parts)
        else slice_to 8 session_id
  end.

(** [os.remove(path)]: [None] for an [OSError] *)
Definition os_remove (st : storage) (path : pystr) : option storage :=
  if path_exists LOG_DIR st path then
    match name_in_log_dir LOG_DIR path with
    | Some n => Some {| dir_present := true; dir_entries := delete_file n (dir_entries st) |}
    | None => None
    end
  else None.

(** lines 272-290 *)
Definition remove_session_file (st : storage) (session_id : pystr)
  : storage * (bool * option pystr) :=
  match find_session_file LOG_DIR st session_id with
  | None | Some [] =>
      (st, (false,
            Some (py "Session file for ID '" ++ slice_to 8 session_id ++ py "...' not found.")))
  | Some log_filename =>
      match os_remove st log_filename with
      | Some st' => (st', (true, None))
      | None =>
          (st, (false,
                Some (py "Error removing session file '" ++ log_filename ++ py "': "
                      ++ exn_text OSError)))
      end
  end.

End SessionStoreRest.

(** ** The Claude client ([ClaudeLLMClient]) *)

(** the [anthropic] module: its two constructors, [None] when the call
    raises *)
Record anthropic_sdk : Type := {
  sdk_Client : pystr -> option (option (api_params -> api_outcome));
  sdk_Anthropic : pystr -> option (option (api_params -> api_outcome))
}.

Record claude_llm_client : Type := {
  llm_model_name : pystr;
  api_key : pystr;
  _client : option (option (api_params -> api_outcome))
}.

(** how the construction of a client ends *)
Inductive init_outcome : Type :=
| InitValueError
| InitExit (code : Z)
| InitOk (c : claude_llm_client).

(** lines 127-142; [anthropic] is [None] when the import fails, and the
    result is [None] for [sys.exit(1)] *)
Definition _initialize_client (anthropic : option anthropic_sdk) (key : pystr)
  : option (option (api_params -> api_outcome)) :=
  match anthropic with
  | None => None
  | Some sdk =>
      match sdk_Client sdk key with
      | Some c => Some c
      | None => sdk_Anthropic sdk key
      end
  end.

(** lines 110-115 *)
Definition new_claude_llm_client (anthropic : option anthropic_sdk)
  (model claude_api_key : pystr) : init_outcome :=
  match claude_api_key with
  | [] => InitValueError
  | _ =>
      match _initialize_client anthropic claude_api_key with
      | Some c => InitOk {| llm_model_name := model; api_key := claude_api_key;
                            _client := Some c |}
      | None => InitExit 1
      end
  end.

(** lines 144-150; the history may be absent.  A handle that is [None] has no
    [messages.create] either. *)
Definition create_chat_session (c : claude_llm_client) (instruction : pystr)
  (history : option (list pyval)) : chat_session :=
  {| client := match _client c with Some sdk_client => sdk_client | None => None end;
     model_name := llm_model_name c;
     system_instruction := instruction;
     _history :=
       match history with
       | Some h => filter (fun entry => is_dict entry && dict_has entry (py "role")
                                        && dict_has entry (py "parts")) h
       | None => []
       end |}.

(** lines 162-163 *)
Definition is_available (c : claude_llm_client) : bool :=
  match _client c with Some _ => true | None => false end
  && match api_key c with [] => false | _ => true end.

(** [s[-4:]] *)
Definition slice_last4 (s : pystr) : pystr := skipn (length s - 4) s.

(** line 166 *)
Definition masked_key (key : pystr) : pystr :=
  if (8 <? length key)%nat then slice_to 4 key ++ py "..." ++ slice_last4 key
  else py "****".

(** lines 165-167 *)
Definition ready_for_use_message (c : claude_llm_client) : pystr :=
  u 9989 ++ py " Klient Claude gotowy (Model: " ++ llm_model_name c ++ py ", Key: "
  ++ masked_key (api_key c) ++ py ")".

(** ** The rename command ([commands/session_rename.py])

    The console is a list of the lines printed, in order. *)

Inductive console_line : Type :=
| PrintError (message : pystr)
| PrintInfo (message : pystr).

Section RenameCommand.
Variable LOG_DIR : pystr.
Variable db : unicode_db.
Variable exn_text : exn -> pystr.
Variable format_minute : pystr -> option pystr.

(** lines 24-26: the test of one listed session against the text given;
    [startswith] is a method of strings only *)
Definition session_matches (session : pyval) (session_id : pystr) : result bool :=
  id <- py_getitem session (py "id") ;;
  if py_eq_str id session_id then Ok true
  else
    starts <- match id with
              | PStr s => Ok (startswith s session_id)
              | _ => Raise AttributeError
              end ;;
    if starts then Ok true
    else
      display_name <- py_get session (py "display_name") (PStr []) ;;
      Ok (py_eq_str display_name session_id).

(** lines 21-28: the id of the first listed session that matches *)
Fixpoint find_target (sessions : list pyval) (session_id : pystr) : result pyval :=
  match sessions with
  | [] => Ok PNone
  | session :: rest =>
      matched <- session_matches session session_id ;;
      if matched then py_getitem session (py "id")
      else find_target rest session_id
  end.

(** lines 5-47: the storage afterwards and the lines printed *)
Definition rename_session_command (st : storage) (session_id new_name : pystr)
  : result (storage * list console_line) :=
  match new_name, strip (is_space db) new_name with
  | [], _ | _, [] =>
      Ok (st, [PrintError (py "B" ++ u 322 ++ u 261 ++ py "d: Nowa nazwa nie mo" ++ u 380
                           ++ py "e by" ++ u 263 ++ py " pusta.")])
  | _, _ =>
      sessions <- list_sessions LOG_DIR exn_text format_minute st ;;
      target_session_id <- find_target sessions session_id ;;
      if negb (truthy target_session_id) then
        Ok (st, [PrintError (py "B" ++ u 322 ++ u 261 ++ py "d: Nie znaleziono sesji o ID lub nazwie: "
                             ++ session_id);
                 PrintInfo (py "U" ++ u 380 ++ py "yj /session list aby zobaczy" ++ u 263
                            ++ py " dost" ++ u 281 ++ py "pne sesje.")])
      else
        match target_session_id with
        | PStr target =>
            let old_display_name := get_session_display_name LOG_DIR st target in
            match rename_session_file LOG_DIR db exn_text st target new_name with
            | (st', (true, _, sanitized_name)) =>
                Ok (st',
                    [PrintInfo ([10] ++ u 10003 ++ py " Zmieniono nazw" ++ u 281 ++ py " sesji:");
                     PrintInfo (py "  Stara nazwa: " ++ old_display_name);
                     PrintInfo (py "  Nowa nazwa:  "
                                ++ match sanitized_name with Some n => n | None => py "None" end);
                     PrintInfo (py "  ID sesji:    " ++ slice_to 8 target ++ py "...")])
            | (st', (false, error, _)) =>
                Ok (st',
                    [PrintError (py "B" ++ u 322 ++ u 261 ++ py "d podczas zmiany nazwy sesji: "
                                 ++ match error with Some e => e | None => py "None" end)])
            end
        | _ => Raise TypeError
        end
  end.
End RenameCommand.

(** ** Corpus files ([tokenizer/corpora.py]) *)

(** [d[key]] and [key in d] for a dictionary with string keys *)
Fixpoint lookup_key {A : Type} (key : pystr) (d : list (pystr * A)) : option A :=
  match d with
  | [] => None
  | (k, v) :: d' => if pystr_eqb k key then Some v else lookup_key key d'
  end.

(** how [get_corpus_file] ends: with a list of paths, with the [ValueError]
    of line 23 and its message, or with the [KeyError] of a missing key *)
Inductive corpus_result : Type :=
| CorpusFiles (files : list pystr)
| CorpusValueError (message : pystr)
| CorpusKeyError (key : pystr).

Section Corpora.
(** [list(Path(directory).glob(pattern))]; the files on disk are the same
    when the module is imported and when the function is called *)
Variable glob : pystr -> pystr -> list pystr.
(** [fnmatch(name, pattern)] *)
Variable fnmatch : pystr -> pystr -> bool.
(** [path.name] *)
Variable path_name : pystr -> pystr.

(** lines 4-8 *)
Definition CORPORA_DIRS : list (pystr * pystr) :=
  [(py "NKJP", py "../korpus-nkjp/output");
   (py "WOLNELEKTURY", py "../korpus-wolnelektury");
   (py "MINI", py "../korpus-mini")].

(** lines 10-15 *)
Definition corpora_files_listed : list (pystr * list pystr) :=
  [(py "NKJP", glob (py "../korpus-nkjp/output") (py "*.txt"));
   (py "WOLNELEKTURY", glob (py "../korpus-wolnelektury") (py "*.txt"));
   (py "PAN_TADEUSZ", glob (py "../korpus-wolnelektury") (py "pan-tadeusz-ksiega-*.txt"));
   (py "MINI", glob (py "../korpus-mini") (py "*.txt"))].

(** lines 17-19: the entry [ALL] holds the files of the four lists, in the
    order of the dictionary *)
Definition CORPORA_FILES : list (pystr * list pystr) :=
  corpora_files_listed ++ [(py "ALL", concat (map snd corpora_files_listed))].

(** [glob_pattern is None or glob_pattern == "*" or glob_pattern == "*.txt"] *)
Definition is_default_pattern (glob_pattern : option pystr) : bool :=
  match glob_pattern with
  | None => true
  | Some p => pystr_eqb p (py "*") || pystr_eqb p (py "*.txt")
  end.

(** lines 21-38 *)
Definition get_corpus_file (corpus_name : pystr) (glob_pattern : option pystr) : corpus_result :=
  match lookup_key corpus_name CORPORA_FILES with
  | None => CorpusValueError (py "Corpus " ++ corpus_name ++ py " not found")
  | Some files =>
      if pystr_eqb corpus_name (py "ALL") then
        if is_default_pattern glob_pattern then CorpusFiles files
        else
          match glob_pattern with
          | Some p => CorpusFiles (filter (fun f => fnmatch (path_name f) p) files)
          | None => CorpusFiles files
          end
      else if is_default_pattern glob_pattern then CorpusFiles files
      else
        match lookup_key corpus_name CORPORA_DIRS, glob_pattern with
        | Some directory, Some p => CorpusFiles (glob directory p)
        | Some directory, None => CorpusFiles files
        | None, _ => CorpusKeyError corpus_name
        end
  end.
End Corpora.

(** ** Sentences of the training corpus ([embedding/run-cbow.py]) *)

Section RawSentences.
Variable db : unicode_db.
(** the lines of a text file as the iteration over the open file yields
    them; [None] when [open] raises [FileNotFoundError] *)
Variable read_lines : pystr -> option (list pystr).



End RawSentences.

(** ** Sample data

    A storage directory, a session id and a session record, on which the
    statements below are evaluated. *)

Definition sample_dir : pystr := py "sessions".

Definition sample_id : pystr := py "abcdef12-3456-7890-abcd-ef1234567890".

Definition sample_history : list pyval :=
  [universal_turn (py "user") (PStr (py "Hello world"));
   universal_turn (py "model") (PStr (py "Hi!"))].

Definition sample_clock (n : nat) : pystr :=
  py "2025-01-01T10:00:0" ++ [48 + N.of_nat (n mod 10)].

Definition sample_record : pyval :=
  session_record sample_id (py "claude-2.1") (py "You are Azor.")
    [PDict [(py "role", PStr (py "user"));
            (py "timestamp", PStr (sample_clock 0));
            (py "text", PStr (py "Hello world"))];
     PDict [(py "role", PStr (py "model"));
            (py "timestamp", PStr (sample_clock 1));
            (py "text", PStr (py "Hi!"))]].

Definition sample_exn_text (e : exn) : pystr := py "error".

Definition sample_format_minute (s : pystr) : option pystr := None.

(** an existing, empty storage directory *)
Definition empty_dir : storage := {| dir_present := true; dir_entries := [] |}.

(** two current-format files that share the short id of the sample session *)
Definition two_names : storage :=
  {| dir_present := true;
     dir_entries := [(py "Hello_world_abcdef12.json", Some sample_record);
                     (py "notes_abcdef12.json", Some (PList []))] |}.

(** a file of the sample session whose JSON text is the empty array *)
Definition array_file : storage :=
  {| dir_present := true;
     dir_entries := [(py "notes_abcdef12.json", Some (PList []))] |}.

(** a file of the sample session with a stored turn that has no text *)
Definition turn_without_text : storage :=
  {| dir_present := true;
     dir_entries :=
       [(py "notes_abcdef12.json",
         Some (PDict [(py "session_id", PStr sample_id);
                      (py "history", PList [PDict [(py "role", PStr (py "user"))]])]))] |}.

(** the sample conversation as (role, text) pairs *)
Definition sample_turns : list (pystr * pystr) :=
  [(py "user", py "Hello world"); (py "model", py "Hi!")].

(** two turns without text *)
Definition silent_turns : list (pystr * pystr) := [(py "user", []); (py "model", [])].

(** no storage directory *)
Definition missing_dir : storage := {| dir_present := false; dir_entries := [] |}.

(** the session stored under both file name formats *)
Definition both_formats : storage :=
  {| dir_present := true;
     dir_entries := [(sample_id ++ py "-log.json", Some sample_record);
                     (py "Hello_world_abcdef12.json", Some sample_record)] |}.

(** ** Predicates of the statements *)

(** two underscores in a row *)
Fixpoint double_underscore (s : pystr) : bool :=
  match s with
  | [] => false
  | a :: t =>
      match t with
      | [] => false
      | b :: _ => (is_underscore a && is_underscore b) || double_underscore t
      end
  end.

(** a name as the codec produces it: characters of [\w] or hyphens, no
    underscore at either end, no doubled underscore, within the cap *)
Definition codec_name (db : unicode_db) (max_length : nat) (name : pystr) : Prop :=
  (forall c, In c name -> is_word db c = true \/ c = hyphen)
  /\ startswith name (py "_") = false
  /\ endswith name (py "_") = false
  /\ double_underscore name = false
  /\ (length name <= max_length)%nat.

(** a conversation given as (role, text) pairs, and its universal shape *)
Definition universal_of_turns (turns : list (pystr * pystr)) : list pyval :=
  map (fun t => universal_turn (fst t) (PStr (snd t))) turns.

(** a turn of a user or of the model with some text *)
Definition valid_turn (t : pystr * pystr) : Prop :=
  (fst t = py "user" \/ fst t = py "model") /\ snd t <> [].

(** the number of characters of all the texts *)
Definition total_chars (turns : list (pystr * pystr)) : nat :=
  list_sum (map (fun t => length (snd t)) turns).

(** the path [rename_session_file] computes for the new name, lines 319-321 *)
Definition rename_target (LOG_DIR : pystr) (db : unicode_db) (sid new_name : pystr) : pystr :=
  log_path LOG_DIR (sanitize db 50 new_name ++ py "_" ++ slice_to 8 sid ++ py ".json").

(** a provider whose call raises *)
Definition failing_client (p : api_params) : api_outcome := ApiRaise OSError.

(** a session with one exchange in its history and a failing provider *)
Definition failing_session : chat_session :=
  {| client := Some failing_client;
     model_name := py "claude-2.1";
     system_instruction := py "You are Azor.";
     _history := sample_history |}.

(** a turn whose text is not empty: the turns [save_session_history] stores *)
Definition has_text (t : pystr * pystr) : bool :=
  match snd t with [] => false | _ => true end.

Definition with_text (turns : list (pystr * pystr)) : list (pystr * pystr) :=
  filter has_text turns.

(** the stored form of turns, stamped from the reading [now] on *)
Fixpoint stored_turns (isoformat_at : nat -> pystr) (now : nat) (turns : list (pystr * pystr))
  : list pyval :=
  match turns with
  | [] => []
  | t :: rest =>
      PDict [(py "role", PStr (fst t));
             (py "timestamp", PStr (isoformat_at now));
             (py "text", PStr (snd t))]
      :: stored_turns isoformat_at (S now) rest
  end.

(** the text of the first turn of the user, if there is one *)
Definition first_user_text (turns : list (pystr * pystr)) : option pystr :=
  match find (fun t => pystr_eqb (fst t) (py "user")) turns with
  | Some t => Some (snd t)
  | None => None
  end.

(** the name of the file of a session that is saved for the first time: made
    from the first turn of the user when that turn has text, the legacy name
    otherwise *)
Definition new_session_name (db : unicode_db) (sid : pystr) (turns : list (pystr * pystr))
  : pystr :=
  match first_user_text turns with
  | Some (c :: t) => generate_friendly_filename db (c :: t) sid ++ py ".json"
  | _ => sid ++ py "-log.json"
  end.

(** names in ascending order, as [<=] of Python compares them *)
Fixpoint ascending (names : list pystr) : bool :=
  match names with
  | [] => true
  | a :: rest =>
      match rest with
      | [] => true
      | b :: _ => pystr_leb a b && ascending rest
      end
  end.

(** the entry [list_sessions] makes for a readable record: [shown] is the
    display name, [count] the number of stored turns and [stamp] the
    timestamp of the last of them *)
Definition readable_entry (format_minute : pystr -> option pystr) (sid shown : pystr)
  (count : nat) (stamp : pystr) : pyval :=
  PDict [(py "id", PStr sid);
         (py "display_name", PStr shown);
         (py "messages_count", PInt (Z.of_nat count));
         (py "last_activity",
          PStr (if pystr_eqb stamp no_date then no_activity
                else match format_minute stamp with
                     | Some t => t
                     | None => no_activity
                     end));
         (py "error", PNone)].

(** the messages sent for a conversation: the turns of the user, and those of
    the model under the role [assistant]; other turns are not sent *)
Definition messages_of (turns : list (pystr * pystr)) : list (pystr * pyval) :=
  flat_map (fun t =>
              if pystr_eqb (fst t) (py "user") then [(py "user", PStr (snd t))]
              else if pystr_eqb (fst t) (py "model") || pystr_eqb (fst t) (py "assistant")
                   then [(py "assistant", PStr (snd t))]
                   else []) turns.

(** * Properties *)

(** ** Strings *)

Lemma pystr_eqb_eq (a b : pystr) : pystr_eqb a b = true <-> a = b.
Proof.
  revert b; induction a as [|x a IH]; intros [|y b]; simpl; split; intro H;
    try reflexivity; try discriminate.
  - apply andb_true_iff in H as [Hx Hab].
    apply N.eqb_eq in Hx. apply IH in Hab. now subst.
  - injection H as -> ->. rewrite N.eqb_refl. simpl. now apply IH.
Qed.

Lemma pystr_eqb_refl (a : pystr) : pystr_eqb a a = true.
Proof. now apply pystr_eqb_eq. Qed.

Lemma pystr_eqb_neq (a b : pystr) : pystr_eqb a b = false <-> a <> b.
Proof.
  split.
  - intros H E. apply pystr_eqb_eq in E. congruence.
  - intros H. destruct (pystr_eqb a b) eqn:E; [|reflexivity].
    apply pystr_eqb_eq in E. contradiction.
Qed.

Lemma startswith_app (p s : pystr) : startswith (p ++ s) p = true.
Proof. induction p as [|x p IH]; simpl; [reflexivity|]. now rewrite N.eqb_refl. Qed.

Lemma startswith_split (s p : pystr) :
  startswith s p = true -> s = p ++ skipn (length p) s.
Proof.
  revert s; induction p as [|x p IH]; intros s H; simpl in *; [reflexivity|].
  destruct s as [|y s]; [discriminate|].
  apply andb_true_iff in H as [Hx Hp]. apply N.eqb_eq in Hx. subst y.
  simpl. f_equal. now apply IH.
Qed.

Lemma endswith_app (s p : pystr) : endswith (s ++ p) p = true.
Proof.
  unfold endswith. rewrite length_app.
  replace (length s + length p - length p)%nat with (length s) by lia.
  rewrite skipn_app, skipn_all, Nat.sub_diag. simpl.
  rewrite pystr_eqb_refl, andb_true_r. apply Nat.leb_le. lia.
Qed.

Lemma endswith_split (s p : pystr) :
  endswith s p = true -> s = firstn (length s - length p) s ++ p.
Proof.
  unfold endswith. intros H. apply andb_true_iff in H as [_ H].
  apply pystr_eqb_eq in H.
  remember (length s - length p)%nat as k.
  rewrite <- H. symmetry. apply firstn_skipn.
Qed.

Lemma has_substring_complete (a pat b : pystr) : has_substring (a ++ pat ++ b) pat = true.
Proof.
  induction a as [|x a IH].
  - cbn [app]. destruct (pat ++ b) eqn:E; cbn [has_substring]; rewrite <- E;
      now rewrite startswith_app.
  - cbn [app has_substring]. rewrite IH. apply orb_true_r.
Qed.

Lemma no_substring (s pat : pystr) :
  has_substring s pat = false -> forall a b, s <> a ++ pat ++ b.
Proof.
  intros H a b ->. now rewrite has_substring_complete in H.
Qed.

(** ** Stripping, character classes and runs *)

Section StripFacts.
Variable p : N -> bool.

Lemma lstrip_incl (s : pystr) (c : N) : In c (lstrip p s) -> In c s.
Proof.
  induction s as [|x s IH]; simpl; [tauto|].
  destruct (p x); simpl; intuition.
Qed.

Lemma rstrip_incl (s : pystr) (c : N) : In c (rstrip p s) -> In c s.
Proof.
  induction s as [|x s IH]; simpl; [tauto|].
  destruct (rstrip p s) as [|y r].
  - destruct (p x); simpl; tauto.
  - simpl in *. intuition.
Qed.

Lemma lstrip_length (s : pystr) : (length (lstrip p s) <= length s)%nat.
Proof. induction s as [|x s IH]; simpl; [lia|]. destruct (p x); simpl; lia. Qed.

Lemma rstrip_length (s : pystr) : (length (rstrip p s) <= length s)%nat.
Proof.
  induction s as [|x s IH]; simpl; [lia|].
  destruct (rstrip p s); [destruct (p x)|]; simpl in *; lia.
Qed.

Lemma lstrip_head (s : pystr) (c : N) (t : pystr) : lstrip p s = c :: t -> p c = false.
Proof.
  induction s as [|x s IH]; simpl; [discriminate|].
  destruct (p x) eqn:E; [exact IH|]. intros H. injection H as -> _. exact E.
Qed.

Lemma rstrip_head (s : pystr) (c : N) (t : pystr) :
  rstrip p s = c :: t -> exists t', s = c :: t'.
Proof.
  destruct s as [|x s]; simpl; [discriminate|].
  destruct (rstrip p s); [destruct (p x)|]; intros H; try discriminate;
    injection H as -> _; eauto.
Qed.

Lemma rstrip_last (s pre : pystr) (c : N) : rstrip p s = pre ++ [c] -> p c = false.
Proof.
  revert pre; induction s as [|x s IH]; intros pre; simpl.
  - destruct pre; discriminate.
  - destruct (rstrip p s) as [|y r] eqn:E.
    + destruct (p x) eqn:Ex; [destruct pre; discriminate|].
      destruct pre as [|z pre]; simpl; intros H.
      * injection H as ->. exact Ex.
      * injection H as _ H. destruct pre; discriminate.
    + destruct pre as [|z pre]; simpl; intros H.
      * discriminate.
      * injection H as _ H. now apply (IH pre).
Qed.
End StripFacts.

Lemma double_underscore_lstrip (p : N -> bool) (s : pystr) :
  double_underscore s = false -> double_underscore (lstrip p s) = false.
Proof.
  induction s as [|x s IH]; [reflexivity|].
  intros H. cbn [lstrip]. destruct (p x); [|exact H].
  apply IH. simpl in H. destruct s; [reflexivity|].
  now apply orb_false_iff in H as [_ H].
Qed.

Lemma double_underscore_rstrip (p : N -> bool) (s : pystr) :
  double_underscore s = false -> double_underscore (rstrip p s) = false.
Proof.
  induction s as [|x s IH]; [reflexivity|].
  intros H. cbn [rstrip].
  destruct (rstrip p s) as [|y r] eqn:E.
  - destruct (p x); reflexivity.
  - destruct (rstrip_head p s y r E) as [t' ->].
    simpl in H. apply orb_false_iff in H as [Hxy Ht].
    specialize (IH Ht).
    change (double_underscore (x :: y :: r))
      with ((is_underscore x && is_underscore y) || double_underscore (y :: r)).
    now rewrite Hxy, IH.
Qed.

Lemma sub_runs_incl (p : N -> bool) (s : pystr) (c : N) :
  In c (sub_runs p s) -> c = underscore \/ (In c s /\ p c = false).
Proof.
  induction s as [|x s IH]; [simpl; tauto|].
  cbn [sub_runs]. destruct (p x) eqn:Ex.
  - destruct s as [|y s].
    + simpl. intuition.
    + destruct (p y) eqn:Ey.
      * intros H. destruct (IH H) as [->|[Hin Hp]]; [now left|right].
        split; [now right|exact Hp].
      * intros [<-|H]; [now left|].
        destruct (IH H) as [->|[Hin Hp]]; [now left|right].
        split; [now right|exact Hp].
  - intros [<-|H].
    + right. split; [now left|exact Ex].
    + destruct (IH H) as [->|[Hin Hp]]; [now left|right].
      split; [now right|exact Hp].
Qed.

Lemma sub_runs_length (p : N -> bool) (s : pystr) : (length (sub_runs p s) <= length s)%nat.
Proof.
  induction s as [|x s IH]; [simpl; lia|].
  cbn [sub_runs]. destruct (p x).
  - destruct s as [|y s]; [simpl; lia|].
    destruct (p y); cbn [length] in *; lia.
  - cbn [length]. lia.
Qed.

Lemma sub_runs_underscore_single (s : pystr) :
  double_underscore (sub_runs is_underscore s) = false.
Proof.
  induction s as [|x s IH]; [reflexivity|].
  cbn [sub_runs]. destruct (is_underscore x) eqn:Ex.
  - destruct s as [|y s]; [reflexivity|].
    destruct (is_underscore y) eqn:Ey; [exact IH|].
    cbn [sub_runs] in *. rewrite Ey in *.
    change (double_underscore (underscore :: y :: sub_runs is_underscore s))
      with ((is_underscore underscore && is_underscore y)
            || double_underscore (y :: sub_runs is_underscore s)).
    now rewrite Ey, andb_false_r, IH.
  - destruct (sub_runs is_underscore s) as [|z r] eqn:E; [reflexivity|].
    change (double_underscore (x :: z :: r))
      with ((is_underscore x && is_underscore z) || double_underscore (z :: r)).
    now rewrite Ex, IH.
Qed.

(** ** Filename codec *)

Section CodecFacts.
Variable db : unicode_db.

Lemma is_word_ascii (c : N) :
  c < 128 -> is_word db c = true -> ascii_name_char c = true.
Proof.
  unfold is_word, ascii_name_char. intros H. apply N.ltb_lt in H. rewrite H.
  intros ->. reflexivity.
Qed.

Lemma strip_no_leading (p : N -> bool) (s : pystr) (c : N) (t : pystr) :
  strip p s = c :: t -> p c = false.
Proof.
  unfold strip. intros H.
  destruct (rstrip_head p _ _ _ H) as [t' E].
  exact (lstrip_head p _ _ _ E).
Qed.

Lemma strip_underscore_ends (s : pystr) :
  startswith (strip is_underscore s) (py "_") = false
  /\ endswith (strip is_underscore s) (py "_") = false.
Proof.
  split.
  - destruct (strip is_underscore s) as [|c t] eqn:E; [reflexivity|].
    apply strip_no_leading in E. unfold is_underscore, underscore in E.
    change (startswith (c :: t) (py "_")) with (N.eqb 95 c && true).
    now rewrite N.eqb_sym, E.
  - destruct (endswith (strip is_underscore s) (py "_")) eqn:E; [|reflexivity].
    apply endswith_split in E. unfold strip in E at 1.
    apply rstrip_last in E. discriminate.
Qed.

Lemma sanitize_chars (n : nat) (s : pystr) (c : N) :
  In c (sanitize db n s) ->
  c = underscore \/ (In c (slice_to n s) /\ (is_word db c = true \/ c = hyphen)).
Proof.
  unfold sanitize, strip, sub_invalid. intros H.
  apply rstrip_incl, lstrip_incl in H.
  apply sub_runs_incl in H as [->|[H _]]; [now left|].
  apply sub_runs_incl in H as [->|[H Hsp]]; [now left|].
  apply filter_In in H as [H Hk].
  apply rstrip_incl, lstrip_incl in H.
  right. split; [exact H|].
  unfold is_kept in Hk. rewrite Hsp, orb_false_r in Hk.
  apply orb_true_iff in Hk as [Hw|Hh]; [now left|right].
  now apply N.eqb_eq in Hh.
Qed.

Lemma sanitize_length (n : nat) (s : pystr) : (length (sanitize db n s) <= n)%nat.
Proof.
  unfold sanitize, strip, sub_invalid, slice_to.
  pose proof (length_firstn n s) as H0.
  set (a := firstn n s) in *.
  pose proof (lstrip_length (is_space db) a) as H1.
  set (b := lstrip (is_space db) a) in *.
  pose proof (rstrip_length (is_space db) b) as H2.
  set (c := rstrip (is_space db) b) in *.
  pose proof (filter_length_le (is_kept db) c) as H3.
  set (d := filter (is_kept db) c) in *.
  pose proof (sub_runs_length (is_space db) d) as H4.
  set (e := sub_runs (is_space db) d) in *.
  pose proof (sub_runs_length is_underscore e) as H5.
  set (f := sub_runs is_underscore e) in *.
  pose proof (lstrip_length is_underscore f) as H6.
  set (g := lstrip is_underscore f) in *.
  pose proof (rstrip_length is_underscore g) as H7.
  lia.
Qed.

Lemma sanitize_codec_name (n : nat) (s : pystr) : codec_name db n (sanitize db n s).
Proof.
  unfold codec_name. repeat split.
  - intros c H. apply sanitize_chars in H as [->|[_ H]]; [now left|exact H].
  - apply strip_underscore_ends.
  - apply strip_underscore_ends.
  - unfold sanitize, strip.
    apply double_underscore_rstrip, double_underscore_lstrip, sub_runs_underscore_single.
  - apply sanitize_length.
Qed.

Lemma conversation_codec_name : codec_name db 50 (py "conversation").
Proof.
  unfold codec_name. repeat split; try reflexivity.
  - intros c H. left. cbn in H.
    repeat (destruct H as [<-|H]; [reflexivity|]). destruct H.
  - cbn. lia.
Qed.

Lemma sanitize_truncates (n : nat) (s : pystr) :
  sanitize db n s = sanitize db n (slice_to n s).
Proof.
  unfold sanitize, slice_to. now rewrite firstn_firstn, Nat.min_id.
Qed.

(** C4 (amended).  The name the codec produces, both the prompt part of
    [generate_friendly_filename] and the sanitized name of
    [rename_session_file], consists of [\w] characters (letters and digits of
    any script, and the underscore) and hyphens; when the first 50 characters
    of the input are ASCII these are the characters [[A-Za-z0-9_\-]].  It
    never starts or ends with an underscore, never holds two underscores in a
    row, is at most 50 characters long, depends only on the first 50
    characters of the input, and each of its characters other than an
    underscore is a character of that prefix. *)
Theorem sanitized_name_shape (s : pystr) :
  codec_name db 50 (sanitize db 50 s)
  /\ codec_name db 50 (friendly_prompt_part db 50 s)
  /\ sanitize db 50 s = sanitize db 50 (slice_to 50 s)
  /\ friendly_prompt_part db 50 s = friendly_prompt_part db 50 (slice_to 50 s)
  /\ (forall c, In c (sanitize db 50 s) -> c = underscore \/ In c (slice_to 50 s))
  /\ ((forall c, In c (slice_to 50 s) -> c < 128) ->
      (forall c, In c (sanitize db 50 s) -> ascii_name_char c = true)
      /\ (forall c, In c (friendly_prompt_part db 50 s) -> ascii_name_char c = true)).
Proof.
  assert (Hascii : (forall c, In c (slice_to 50 s) -> c < 128) ->
                   forall c, In c (sanitize db 50 s) -> ascii_name_char c = true).
  { intros Hs c H. apply sanitize_chars in H as [->|[Hin [Hw| ->]]]; try reflexivity.
    apply is_word_ascii; auto. }
  split; [apply sanitize_codec_name|].
  split.
  { unfold friendly_prompt_part.
    pose proof (sanitize_codec_name 50 s) as H.
    destruct (sanitize db 50 s); [apply conversation_codec_name|exact H]. }
  split; [apply sanitize_truncates|].
  split; [unfold friendly_prompt_part; now rewrite <- sanitize_truncates|].
  split.
  { intros c H. apply sanitize_chars in H as [->|[H _]]; [now left|now right]. }
  intros Hs. split; [now apply Hascii|].
  intros c. unfold friendly_prompt_part.
  specialize (Hascii Hs).
  destruct (sanitize db 50 s) as [|x r].
  - intros H. cbn in H. repeat (destruct H as [<-|H]; [reflexivity|]). destruct H.
  - apply Hascii.
Qed.

End CodecFacts.

(** C4 as stated fails: the letter U+017C, a word character for [re], passes
    through the codec although it is outside [[A-Za-z0-9_\-]]. *)
Lemma sanitized_name_not_ascii :
  sanitize latin_db 50 [380] = [380]
  /\ friendly_prompt_part latin_db 50 [380] = [380]
  /\ ascii_name_char 380 = false.
Proof. repeat split; reflexivity. Qed.

Lemma sanitized_name_shape_witness :
  (forall c, In c (slice_to 50 (py "  Hello,   world!  ")) -> c < 128)
  /\ sanitize latin_db 50 (py "  Hello,   world!  ") = py "Hello_world"
  /\ (forall c, In c (sanitize latin_db 50 (py "  Hello,   world!  ")) ->
      ascii_name_char c = true).
Proof.
  assert (H : forall c, In c (slice_to 50 (py "  Hello,   world!  ")) -> c < 128).
  { intros c H. cbn in H. repeat (destruct H as [<-|H]; [reflexivity|]). destruct H. }
  split; [exact H|]. split; [reflexivity|].
  apply (sanitized_name_shape latin_db (py "  Hello,   world!  ")). exact H.
Defined.

(** ** Paths and the storage directory *)

Section PathFacts.
Variable LOG_DIR : pystr.

Lemma name_in_log_dir_log_path (n : pystr) :
  name_in_log_dir LOG_DIR (log_path LOG_DIR n) = Some n.
Proof.
  unfold name_in_log_dir, log_path.
  rewrite app_assoc, startswith_app, skipn_app, skipn_all, Nat.sub_diag.
  reflexivity.
Qed.

Lemma log_path_inj (a b : pystr) : log_path LOG_DIR a = log_path LOG_DIR b -> a = b.
Proof.
  intros H. apply (f_equal (name_in_log_dir LOG_DIR)) in H.
  rewrite !name_in_log_dir_log_path in H. congruence.
Qed.

Lemma existsb_name (n : pystr) (names : list pystr) :
  existsb (pystr_eqb n) names = true <-> In n names.
Proof.
  rewrite existsb_exists. split.
  - intros [x [Hx E]]. apply pystr_eqb_eq in E. now subst.
  - intros H. exists n. split; [exact H|apply pystr_eqb_refl].
Qed.

Lemma path_exists_log_path (st : storage) (n : pystr) :
  path_exists LOG_DIR st (log_path LOG_DIR n) = true
  <-> dir_present st = true /\ In n (listed_names st).
Proof.
  unfold path_exists. rewrite name_in_log_dir_log_path, andb_true_iff, existsb_name.
  reflexivity.
Qed.

Lemma find_session_file_in_log_dir (st : storage) (sid path : pystr) :
  find_session_file LOG_DIR st sid = Some path ->
  exists n, path = log_path LOG_DIR n /\ In n (listed_names st) /\ dir_present st = true.
Proof.
  unfold find_session_file.
  destruct (dir_present st) eqn:Hd; [|discriminate]. cbn [negb].
  destruct (path_exists LOG_DIR st _) eqn:He.
  - intros H. injection H as <-. apply path_exists_log_path in He as [_ He]. eauto.
  - destruct (find _ (listed_names st)) as [n|] eqn:Hf; [|discriminate].
    intros H. injection H as <-. apply find_some in Hf as [Hf _]. eauto.
Qed.
End PathFacts.

(** ** Removing the legacy suffix *)

(** the suffix does not overlap itself, so an occurrence that starts inside
    [sid] lies inside [sid] *)
Lemma legacy_suffix_no_straddle (c : N) (sid : pystr) :
  startswith ((c :: sid) ++ (py "-log.json")) (py "-log.json") = true ->
  exists b, c :: sid = (py "-log.json") ++ b.
Proof.
  intros H.
  change (py "-log.json") with [45; 108; 111; 103; 46; 106; 115; 111; 110] in *.
  destruct sid as [|c1 [|c2 [|c3 [|c4 [|c5 [|c6 [|c7 [|c8 rest]]]]]]]];
    cbn [startswith app] in H;
    repeat (apply andb_true_iff in H; destruct H as [?H H]);
    repeat match goal with
           | E : (_ =? _) = true |- _ => apply N.eqb_eq in E
           end;
    try discriminate.
  subst. exists rest. reflexivity.
Qed.

Lemma replace_legacy_suffix (sid : pystr) :
  (forall a b, sid <> a ++ (py "-log.json") ++ b) ->
  replace_with_empty (sid ++ (py "-log.json")) (py "-log.json") = sid.
Proof.
  unfold replace_with_empty.
  induction sid as [|c sid IH]; intros Hno; [reflexivity|].
  change ((c :: sid) ++ (py "-log.json")) with (c :: (sid ++ (py "-log.json"))).
  cbn [remove_all_from].
  destruct (startswith (c :: sid ++ (py "-log.json")) (py "-log.json")) eqn:E.
  - apply (legacy_suffix_no_straddle c sid) in E as [b Hb].
    exfalso. apply (Hno [] b). exact Hb.
  - f_equal. apply IH. intros a b Hab.
    apply (Hno (c :: a) b). now rewrite Hab.
Qed.

Lemma not_legacy_name (name short : pystr) :
  endswith short (py "-log") = false ->
  endswith (name ++ py "_" ++ short ++ py ".json") (py "-log.json") = false.
Proof.
  intros Hs.
  destruct (endswith (name ++ py "_" ++ short ++ py ".json") (py "-log.json")) eqn:E;
    [|reflexivity].
  apply endswith_split in E.
  remember (firstn _ _) as pre eqn:Hpre. clear Hpre.
  change (py "-log.json") with (py "-log" ++ py ".json") in E.
  rewrite !app_assoc in E. apply app_inv_tail in E.
  apply (f_equal (@rev N)) in E. rewrite !rev_app_distr in E.
  cbn [py list_ascii_of_string map rev app N_of_ascii] in E.
  assert (Hr : exists r, rev short = [103; 111; 108; 45] ++ r).
  { destruct (rev short) as [|a [|b [|c [|d r]]]]; cbn in E; try discriminate.
    injection E as -> -> -> -> _. now exists r. }
  destruct Hr as [r Hr].
  apply (f_equal (@rev N)) in Hr. rewrite rev_involutive, rev_app_distr in Hr.
  rewrite Hr in Hs.
  change (rev [103; 111; 108; 45]) with (py "-log") in Hs.
  rewrite endswith_app in Hs. discriminate.
Qed.

(** ** Lookup and listing *)

Section SortedFacts.
Context {A : Type} (key : A -> pystr).

Lemma insert_sorted_In (x y : A) (l : list A) :
  In y (insert_sorted key x l) <-> y = x \/ In y l.
Proof.
  induction l as [|z l IH]; simpl.
  - intuition.
  - destruct (pystr_leb (key x) (key z)); simpl; [intuition|].
    rewrite IH. intuition.
Qed.

Lemma sorted_by_In (y : A) (l : list A) : In y (sorted_by key l) <-> In y l.
Proof.
  induction l as [|x l IH]; simpl; [tauto|].
  rewrite insert_sorted_In, IH. intuition.
Qed.

Lemma sorted_by_length (l : list A) : length (sorted_by key l) = length l.
Proof.
  induction l as [|x l IH]; simpl; [reflexivity|].
  rewrite <- IH. generalize (sorted_by key l) as m.
  induction m as [|z m IHm]; simpl; [reflexivity|].
  destruct (pystr_leb (key x) (key z)); simpl; [reflexivity|]. now rewrite IHm.
Qed.
End SortedFacts.

Lemma classify_file_name (files : list pystr) (f : pystr)
  (item : pystr * option pystr * option pystr) :
  In item (classify_file files f) -> fst (fst item) = f.
Proof.
  unfold classify_file.
  repeat match goal with
         | |- context [if ?b then _ else _] => destruct b
         end; simpl; intros H; try tauto; destruct H as [<-|[]]; reflexivity.
Qed.

Lemma classify_superseded_legacy (files : list pystr) (sid name : pystr) :
  In (name ++ py "_" ++ slice_to 8 sid ++ py ".json") files ->
  (forall a b, sid <> a ++ py "-log.json" ++ b) ->
  endswith (slice_to 8 sid) (py "-log") = false ->
  classify_file files (sid ++ py "-log.json") = [].
Proof.
  intros Hcur Hno Hshort. unfold classify_file.
  destruct (endswith (sid ++ py "-log.json") (py ".json")
            && negb (pystr_eqb (sid ++ py "-log.json") (py "azor-wal.json")));
    [|reflexivity].
  rewrite endswith_app.
  rewrite (replace_legacy_suffix sid Hno).
  match goal with
  | |- (if negb ?b then _ else _) = _ => assert (Hb : b = true)
  end.
  { apply existsb_exists. exists (name ++ py "_" ++ slice_to 8 sid ++ py ".json").
    split; [exact Hcur|].
    rewrite (endswith_app name (py "_" ++ slice_to 8 sid ++ py ".json")).
    now rewrite (not_legacy_name name (slice_to 8 sid) Hshort). }
  now rewrite Hb.
Qed.

Section LookupFacts.
Variable LOG_DIR : pystr.
Variable db : unicode_db.
Variable isoformat_at : nat -> pystr.
Variable exn_text : exn -> pystr.
Variable format_minute : pystr -> option pystr.

Lemma find_prefers_legacy (st : storage) (sid : pystr) :
  dir_present st = true ->
  In (sid ++ py "-log.json") (listed_names st) ->
  find_session_file LOG_DIR st sid = Some (log_path LOG_DIR (sid ++ py "-log.json")).
Proof.
  intros Hd Hin. unfold find_session_file. rewrite Hd. cbn [negb].
  assert (H : path_exists LOG_DIR st (log_path LOG_DIR (sid ++ py "-log.json")) = true)
    by now apply path_exists_log_path.
  now rewrite H.
Qed.

(** C1 (amended).  When a legacy file [<session_id>-log.json] and a
    current-format file [<name>_<shortId>.json] of the same session are both
    in the storage directory, [find_session_file] returns the path of the
    legacy file, which it tries first; [list_sessions] nevertheless reports
    on no such legacy file, for every session id that does not contain
    [-log.json] and whose short id does not end in [-log] (every id made of
    hexadecimal digits and hyphens is one). *)
Theorem legacy_found_first_but_not_listed (st : storage) (sid name : pystr) :
  dir_present st = true ->
  In (sid ++ py "-log.json") (listed_names st) ->
  In (name ++ py "_" ++ slice_to 8 sid ++ py ".json") (listed_names st) ->
  has_substring sid (py "-log.json") = false ->
  endswith (slice_to 8 sid) (py "-log") = false ->
  find_session_file LOG_DIR st sid = Some (log_path LOG_DIR (sid ++ py "-log.json"))
  /\ ~ In (sid ++ py "-log.json")
          (map (fun x => fst (fst x)) (sorted_session_files (listed_names st)))
  /\ list_sessions LOG_DIR exn_text format_minute st
     = Ok (map (session_entry LOG_DIR exn_text format_minute st)
               (sorted_session_files (listed_names st))).
Proof.
  intros Hd Hleg Hcur Hsub Hshort.
  pose proof (no_substring sid (py "-log.json") Hsub) as Hno.
  split; [now apply find_prefers_legacy|]. split.
  - intros H. apply in_map_iff in H as [item [Hkey Hin]].
    unfold sorted_session_files in Hin. apply sorted_by_In in Hin.
    unfold session_files in Hin. apply in_flat_map in Hin as [f [_ Hf]].
    pose proof (classify_file_name _ _ _ Hf) as Hname.
    rewrite Hkey in Hname. subst f.
    now rewrite (classify_superseded_legacy _ sid name Hcur Hno Hshort) in Hf.
  - unfold list_sessions, listdir. now rewrite Hd.
Qed.

End LookupFacts.

(** C1 as stated fails: with both files of the sample session in the
    directory, the lookup answers the legacy path, not the current one. *)
Lemma find_returns_legacy_path :
  In (sample_id ++ py "-log.json") (listed_names both_formats)
  /\ In (py "Hello_world" ++ py "_" ++ slice_to 8 sample_id ++ py ".json")
        (listed_names both_formats)
  /\ find_session_file sample_dir both_formats sample_id
     = Some (py "sessions/abcdef12-3456-7890-abcd-ef1234567890-log.json")
  /\ find_session_file sample_dir both_formats sample_id
     <> Some (log_path sample_dir (py "Hello_world_abcdef12.json")).
Proof.
  split; [left; reflexivity|]. split; [right; left; reflexivity|].
  split; [reflexivity|]. vm_compute. discriminate.
Qed.

Lemma legacy_found_first_but_not_listed_witness :
  find_session_file sample_dir both_formats sample_id
  = Some (log_path sample_dir (sample_id ++ py "-log.json"))
  /\ ~ In (sample_id ++ py "-log.json")
          (map (fun x => fst (fst x)) (sorted_session_files (listed_names both_formats)))
  /\ list_sessions sample_dir sample_exn_text sample_format_minute both_formats
     = Ok (map (session_entry sample_dir sample_exn_text sample_format_minute both_formats)
               (sorted_session_files (listed_names both_formats))).
Proof.
  apply (legacy_found_first_but_not_listed sample_dir sample_exn_text sample_format_minute
           both_formats sample_id (py "Hello_world")).
  - reflexivity.
  - left. reflexivity.
  - right. left. reflexivity.
  - reflexivity.
  - reflexivity.
Defined.

(** ** History normalizer *)

Section NormalizerFacts.
Variable isoformat_at : nat -> pystr.

Lemma entry_text_universal (role : pystr) (t : pyval) :
  entry_text (universal_turn role t) = Ok t.
Proof. reflexivity. Qed.

Lemma entry_role_universal (role : pystr) (t : pyval) :
  entry_role (universal_turn role t) = Ok (PStr role).
Proof. reflexivity. Qed.

Lemma to_universal_record (sid mn sp : pystr) (stored : list pyval) :
  to_universal (session_record sid mn sp stored) = map_result to_universal_entry stored.
Proof. reflexivity. Qed.

(** turns with text survive the round trip, whatever their roles *)
Lemma round_trip_texts (sid mn sp : pystr) (turns : list (pystr * pystr)) :
  Forall (fun t => snd t <> []) turns ->
  forall now, exists stored,
    from_universal isoformat_at now (universal_of_turns turns)
    = Ok (stored, (now + length turns)%nat)
    /\ length stored = length turns
    /\ to_universal (session_record sid mn sp stored) = Ok (universal_of_turns turns).
Proof.
  setoid_rewrite to_universal_record.
  induction 1 as [|[role t] turns Ht _ IH]; intros now.
  - exists []. cbn. now rewrite Nat.add_0_r.
  - destruct (IH (S now)) as [stored [Hf [Hl Ht']]].
    change (universal_of_turns ((role, t) :: turns))
      with (universal_turn role (PStr t) :: universal_of_turns turns).
    cbn [from_universal].
    rewrite entry_text_universal. cbn [bind].
    simpl in Ht. destruct t as [|c t]; [contradiction|]. cbn [truthy].
    rewrite entry_role_universal. cbn [bind]. rewrite Hf. cbn [bind fst snd].
    eexists. split; [|split].
    + f_equal. f_equal. cbn [length]. lia.
    + cbn [length]. now rewrite Hl.
    + cbn [map_result]. rewrite Ht'. reflexivity.
Qed.

(** C2.  A sequence of user and model turns with non-empty texts, stored by
    the loop of [save_session_history] and decoded by the loop of
    [load_session_history], comes back as the same sequence of roles and
    texts; one stored turn is written for each turn. *)
Theorem history_round_trip (sid mn sp : pystr) (turns : list (pystr * pystr)) (now : nat) :
  Forall valid_turn turns ->
  exists stored now',
    from_universal isoformat_at now (universal_of_turns turns) = Ok (stored, now')
    /\ length stored = length turns
    /\ to_universal (session_record sid mn sp stored) = Ok (universal_of_turns turns).
Proof.
  intros H.
  assert (Ht : Forall (fun t => snd t <> []) turns).
  { eapply Forall_impl; [|exact H]. intros t [_ Hs]. exact Hs. }
  destruct (round_trip_texts sid mn sp turns Ht now) as [stored Hs].
  exists stored, (now + length turns)%nat. exact Hs.
Qed.

End NormalizerFacts.

Lemma history_round_trip_witness :
  exists stored now',
    from_universal sample_clock 0
      (universal_of_turns [(py "user", py "Hello world"); (py "model", py "Hi!")])
    = Ok (stored, now')
    /\ length stored = 2%nat
    /\ to_universal (session_record sample_id (py "claude-2.1") (py "You are Azor.") stored)
       = Ok (universal_of_turns [(py "user", py "Hello world"); (py "model", py "Hi!")]).
Proof.
  apply (history_round_trip sample_clock sample_id (py "claude-2.1") (py "You are Azor.")
           [(py "user", py "Hello world"); (py "model", py "Hi!")] 0).
  repeat constructor; simpl; discriminate.
Defined.

(** ** Saving *)

Lemma put_file_new (name : pystr) (c : option pyval) (entries : list (pystr * option pyval)) :
  ~ In name (map fst entries) -> put_file name c entries = entries ++ [(name, c)].
Proof.
  induction entries as [|[n c'] entries IH]; intros H; [reflexivity|].
  cbn [put_file]. destruct (pystr_eqb n name) eqn:E.
  - apply pystr_eqb_eq in E. exfalso. apply H. now left.
  - cbn [app]. f_equal. apply IH. intros Hin. apply H. now right.
Qed.

Section SaveFacts.
Variable LOG_DIR : pystr.
Variable db : unicode_db.
Variable isoformat_at : nat -> pystr.
Variable exn_text : exn -> pystr.

(** no session file: the directory holds no name with the suffix of the
    session *)
Lemma find_none_no_suffix (st : storage) (sid n : pystr) :
  dir_present st = true ->
  find_session_file LOG_DIR st sid = None ->
  endswith n (py "_" ++ slice_to 8 sid ++ py ".json") = true ->
  ~ In n (listed_names st).
Proof.
  unfold find_session_file. intros -> H He Hin. cbn [negb] in H.
  destruct (path_exists LOG_DIR st _); [discriminate|].
  destruct (find _ (listed_names st)) eqn:Hf; [discriminate|].
  apply (find_none _ _ Hf) in Hin. cbn beta in Hin. congruence.
Qed.

(** C6.  A history of fewer than two turns is not written: the call
    succeeds without an error and leaves the storage, and the clock, as they
    were. *)
Theorem save_short_history_is_noop (w : world) (sid : pystr) (history : list pyval)
  (system_prompt model : pystr) :
  (length history < 2)%nat ->
  save_session_history LOG_DIR db isoformat_at exn_text w sid history system_prompt model
  = Ok (w, (true, None)).
Proof.
  intros H. unfold save_session_history.
  apply Nat.ltb_lt in H. now rewrite H.
Qed.

(** C3 (amended).  Saving the history user "Hello world", model "Hi!" under
    a session id that starts with [abcdef12], into an existing storage
    directory that holds no file of the session, succeeds and adds exactly
    one file, [Hello_world_abcdef12.json] with the capitals of the message
    kept; the file holds the session record with both turns, stamped with the
    two readings of the clock taken during the call, and the other files are
    as before. *)
Theorem save_hello_world (st : storage) (now : nat) (sid system_prompt model : pystr) :
  slice_to 8 sid = py "abcdef12" ->
  dir_present st = true ->
  find_session_file LOG_DIR st sid = None ->
  save_session_history LOG_DIR db isoformat_at exn_text {| fs := st; ticks := now |} sid
    sample_history system_prompt model
  = Ok ({| fs := {| dir_present := true;
                    dir_entries :=
                      dir_entries st ++
                      [(py "Hello_world_abcdef12.json",
                        Some (session_record sid model system_prompt
                                [PDict [(py "role", PStr (py "user"));
                                        (py "timestamp", PStr (isoformat_at now));
                                        (py "text", PStr (py "Hello world"))];
                                 PDict [(py "role", PStr (py "model"));
                                        (py "timestamp", PStr (isoformat_at (S now)));
                                        (py "text", PStr (py "Hi!"))]]))] |};
           ticks := S (S now) |},
        (true, None))
  /\ ~ In (py "Hello_world_abcdef12.json") (listed_names st).
Proof.
  intros Hshort Hd Hfind.
  assert (Hnew : ~ In (py "Hello_world_abcdef12.json") (listed_names st)).
  { apply (find_none_no_suffix st sid _ Hd Hfind). rewrite Hshort. reflexivity. }
  split; [|exact Hnew].
  unfold save_session_history, save_target. cbn [length Nat.ltb Nat.leb sample_history fs ticks].
  rewrite Hfind.
  change (first_user_message sample_history) with (Ok (PStr (py "Hello world"))).
  cbn [bind truthy py list_ascii_of_string map friendly_name_of].
  unfold generate_friendly_filename, generate_friendly_filename_n, short_id_of.
  rewrite Hshort.
  change (friendly_prompt_part db 50 _) with (py "Hello_world").
  change (from_universal isoformat_at now sample_history)
    with (Ok ([PDict [(py "role", PStr (py "user"));
                      (py "timestamp", PStr (isoformat_at now));
                      (py "text", PStr (py "Hello world"))];
               PDict [(py "role", PStr (py "model"));
                      (py "timestamp", PStr (isoformat_at (S now)));
                      (py "text", PStr (py "Hi!"))]], S (S now))).
  cbn [bind fst snd].
  unfold json_dump. rewrite Hd.
  change ((py "Hello_world" ++ py "_" ++ py "abcdef12") ++ py ".json")
    with (py "Hello_world_abcdef12.json").
  rewrite name_in_log_dir_log_path.
  assert (Hser : forall a b,
             json_serializable
               (session_record sid model system_prompt
                  [PDict [(py "role", PStr (py "user")); (py "timestamp", PStr a);
                          (py "text", PStr (py "Hello world"))];
                   PDict [(py "role", PStr (py "model")); (py "timestamp", PStr b);
                          (py "text", PStr (py "Hi!"))]]) = true) by reflexivity.
  rewrite Hser. rewrite (put_file_new _ _ _ Hnew). reflexivity.
Qed.

End SaveFacts.

Lemma save_short_history_is_noop_witness :
  save_session_history sample_dir latin_db sample_clock sample_exn_text
    {| fs := empty_dir; ticks := 0 |} sample_id
    [universal_turn (py "user") (PStr (py "Hello world"))] (py "You are Azor.") (py "claude-2.1")
  = Ok ({| fs := empty_dir; ticks := 0 |}, (true, None)).
Proof.
  apply (save_short_history_is_noop sample_dir latin_db sample_clock sample_exn_text).
  simpl. lia.
Defined.

(** C3 as stated fails: the file that appears in the empty directory is
    [Hello_world_abcdef12.json]; no [hello_world_abcdef12.json] exists after
    the call. *)
Lemma save_keeps_capitals :
  slice_to 8 sample_id = py "abcdef12"
  /\ find_session_file sample_dir empty_dir sample_id = None
  /\ exists w',
      save_session_history sample_dir latin_db sample_clock sample_exn_text
        {| fs := empty_dir; ticks := 0 |} sample_id sample_history
        (py "You are Azor.") (py "claude-2.1")
      = Ok (w', (true, None))
      /\ listed_names (fs w') = [py "Hello_world_abcdef12.json"]
      /\ lookup_file (py "hello_world_abcdef12.json") (dir_entries (fs w')) = None.
Proof.
  split; [reflexivity|]. split; [reflexivity|].
  eexists. split; [reflexivity|]. split; reflexivity.
Qed.

Lemma save_hello_world_witness :
  save_session_history sample_dir latin_db sample_clock sample_exn_text
    {| fs := empty_dir; ticks := 0 |} sample_id sample_history
    (py "You are Azor.") (py "claude-2.1")
  = Ok ({| fs := {| dir_present := true;
                    dir_entries := [(py "Hello_world_abcdef12.json", Some sample_record)] |};
           ticks := 2 |},
        (true, None))
  /\ ~ In (py "Hello_world_abcdef12.json") (listed_names empty_dir).
Proof.
  apply (save_hello_world sample_dir latin_db sample_clock sample_exn_text empty_dir 0
           sample_id (py "You are Azor.") (py "claude-2.1")); reflexivity.
Defined.

(** the saved session loads back as the history that was saved *)
Lemma load_after_save_hello_world :
  load_session_history sample_dir
    {| dir_present := true;
       dir_entries := [(py "Hello_world_abcdef12.json", Some sample_record)] |} sample_id
  = Ok (sample_history, None).
Proof. reflexivity. Qed.

(** ** Renaming *)

Section RenameFacts.
Variable LOG_DIR : pystr.
Variable db : unicode_db.
Variable exn_text : exn -> pystr.

Lemma os_rename_same_path (st : storage) (sid path : pystr) :
  find_session_file LOG_DIR st sid = Some path ->
  os_rename LOG_DIR st path path = Some st.
Proof.
  intros H. apply find_session_file_in_log_dir in H as [n [-> [Hin Hd]]].
  unfold os_rename.
  assert (He : path_exists LOG_DIR st (log_path LOG_DIR n) = true)
    by now apply path_exists_log_path.
  now rewrite He, name_in_log_dir_log_path, pystr_eqb_refl.
Qed.

(** C7.  When the path computed for the new name is taken by a file other
    than the file of the session, the rename fails with the collision
    message, returns no name, and the storage directory is as it was. *)
Theorem rename_collision (st : storage) (sid new_name old_filepath : pystr) :
  find_session_file LOG_DIR st sid = Some old_filepath ->
  sanitize db 50 new_name <> [] ->
  path_exists LOG_DIR st (rename_target LOG_DIR db sid new_name) = true ->
  rename_target LOG_DIR db sid new_name <> old_filepath ->
  rename_session_file LOG_DIR db exn_text st sid new_name
  = (st, (false,
          Some (py "Plik o nazwie '"
                ++ (sanitize db 50 new_name ++ py "_" ++ slice_to 8 sid ++ py ".json")
                ++ py "' ju" ++ u 380 ++ py " istnieje."),
          None)).
Proof.
  unfold rename_target. intros Hfind Hname Hex Hneq. unfold rename_session_file.
  rewrite Hfind. destruct (sanitize db 50 new_name) as [|c name] eqn:E; [contradiction|].
  rewrite Hex. apply pystr_eqb_neq in Hneq. now rewrite Hneq.
Qed.

(** C10.  When the path computed for the new name is the path of the file
    of the session, the rename succeeds, returns the sanitized name and
    leaves the storage directory as it was, although a file exists at the
    target path. *)
Theorem rename_to_own_name (st : storage) (sid new_name old_filepath : pystr) :
  find_session_file LOG_DIR st sid = Some old_filepath ->
  sanitize db 50 new_name <> [] ->
  rename_target LOG_DIR db sid new_name = old_filepath ->
  path_exists LOG_DIR st (rename_target LOG_DIR db sid new_name) = true
  /\ rename_session_file LOG_DIR db exn_text st sid new_name
     = (st, (true, None, Some (sanitize db 50 new_name))).
Proof.
  unfold rename_target. intros Hfind Hname Heq. split.
  - rewrite Heq. apply find_session_file_in_log_dir in Hfind as [n [-> [Hin Hd]]].
    now apply path_exists_log_path.
  - unfold rename_session_file.
    rewrite Hfind. destruct (sanitize db 50 new_name) as [|c name] eqn:E; [contradiction|].
    rewrite Heq, pystr_eqb_refl, andb_false_r.
    now rewrite (os_rename_same_path st sid old_filepath Hfind).
Qed.

End RenameFacts.

Lemma rename_collision_witness :
  find_session_file sample_dir two_names sample_id
  = Some (log_path sample_dir (py "Hello_world_abcdef12.json"))
  /\ rename_session_file sample_dir latin_db sample_exn_text two_names sample_id (py "notes")
     = (two_names,
        (false,
         Some (py "Plik o nazwie 'notes_abcdef12.json' ju" ++ u 380 ++ py " istnieje."),
         None)).
Proof.
  split; [reflexivity|].
  apply (rename_collision sample_dir latin_db sample_exn_text two_names sample_id (py "notes")
           (log_path sample_dir (py "Hello_world_abcdef12.json"))).
  - reflexivity.
  - vm_compute. discriminate.
  - reflexivity.
  - vm_compute. discriminate.
Defined.

Lemma rename_to_own_name_witness :
  path_exists sample_dir two_names (log_path sample_dir (py "Hello_world_abcdef12.json")) = true
  /\ rename_session_file sample_dir latin_db sample_exn_text two_names sample_id
       (py " Hello, world! ")
     = (two_names, (true, None, Some (py "Hello_world"))).
Proof.
  apply (rename_to_own_name sample_dir latin_db sample_exn_text two_names sample_id
           (py " Hello, world! ") (log_path sample_dir (py "Hello_world_abcdef12.json"))).
  - reflexivity.
  - vm_compute. discriminate.
  - reflexivity.
Defined.

(** ** Loading *)

Section LoadFacts.
Variable LOG_DIR : pystr.

Lemma load_absent (st : storage) (sid : pystr) :
  find_session_file LOG_DIR st sid = None ->
  load_session_history LOG_DIR st sid
  = Ok ([], Some (py "Session log file for session '" ++ slice_to 8 sid
                  ++ py "...' does not exist. Starting new session.")).
Proof. intros H. unfold load_session_history. now rewrite H. Qed.

Lemma load_undecodable (st : storage) (sid path : pystr) :
  find_session_file LOG_DIR st sid = Some path ->
  json_load LOG_DIR st path = Raise JSONDecodeError ->
  load_session_history LOG_DIR st sid
  = Ok ([], Some (py "Cannot decode log file '" ++ path ++ py "'. Starting new session.")).
Proof. intros H E. unfold load_session_history. now rewrite H, E. Qed.

Lemma load_decoded (st : storage) (sid path : pystr) (log_data : pyval) :
  find_session_file LOG_DIR st sid = Some path ->
  json_load LOG_DIR st path = Ok log_data ->
  load_session_history LOG_DIR st sid
  = (history <- to_universal log_data ;; Ok (history, None)).
Proof. intros H E. unfold load_session_history. now rewrite H, E. Qed.

End LoadFacts.

(** C8 on the code.  A session file that holds decodable JSON of another
    shape makes [load_session_history] raise: [AttributeError] for the empty
    array, [KeyError] for a stored turn without text.  Both files decode, and
    the call returns neither a history nor an error message. *)
Theorem load_raises_on_other_json :
  json_load sample_dir array_file (log_path sample_dir (py "notes_abcdef12.json"))
  = Ok (PList [])
  /\ load_session_history sample_dir array_file sample_id = Raise AttributeError
  /\ load_session_history sample_dir turn_without_text sample_id = Raise KeyError.
Proof. repeat split; reflexivity. Qed.

(** ** Claude adapter *)

(** the history after a call is always two turns longer, whatever the
    provider does *)
Lemma send_message_adds_two_turns (s : chat_session) (message : pystr) :
  length (_history (fst (send_message s message))) = (length (_history s) + 2)%nat.
Proof.
  unfold send_message, try_send.
  destruct (build_messages _) as [messages|e]; cbn [bind].
  - destruct (client s) as [create|].
    + destruct (create _) as [e|[[|block blocks]|]];
        cbn [fst with_history _history]; rewrite !length_app; cbn [length]; lia.
    + cbn [fst with_history _history]. rewrite !length_app. cbn [length]. lia.
  - cbn [fst with_history _history]. rewrite !length_app. cbn [length]. lia.
Qed.

(** C5.  When the call to the provider raises, [send_message] raises
    nothing: it returns the apology text, which is not empty, and the stored
    history is the old history followed by the user turn and by a model turn
    that holds the apology, two turns more. *)
Theorem send_message_provider_failure (s : chat_session) (message : pystr)
  (create : api_params -> api_outcome) :
  client s = Some create ->
  (forall messages,
      build_messages (_history s ++ [universal_turn (py "user") (PStr message)]) = Ok messages ->
      exists e, create (request_of s messages) = ApiRaise e) ->
  text (snd (send_message s message)) = err_text
  /\ err_text <> []
  /\ _history (fst (send_message s message))
     = _history s ++ [universal_turn (py "user") (PStr message);
                      universal_turn (py "model") (PStr err_text)]
  /\ length (_history (fst (send_message s message))) = (length (_history s) + 2)%nat.
Proof.
  intros Hc Hraise.
  assert (Hfail : exists e,
             try_send s (_history s ++ [universal_turn (py "user") (PStr message)]) = Raise e).
  { unfold try_send.
    destruct (build_messages _) as [messages|e] eqn:Hb; cbn [bind]; [|eauto].
    rewrite Hc. destruct (Hraise messages eq_refl) as [e ->]. eauto. }
  destruct Hfail as [e Hfail].
  split; [|split; [|split]].
  - unfold send_message. now rewrite Hfail.
  - discriminate.
  - unfold send_message. rewrite Hfail. cbn [fst with_history _history].
    now rewrite <- app_assoc.
  - apply send_message_adds_two_turns.
Qed.

Lemma send_message_provider_failure_witness :
  text (snd (send_message failing_session (py "Are you there?"))) = err_text
  /\ err_text <> []
  /\ _history (fst (send_message failing_session (py "Are you there?")))
     = sample_history ++ [universal_turn (py "user") (PStr (py "Are you there?"));
                          universal_turn (py "model") (PStr err_text)]
  /\ length (_history (fst (send_message failing_session (py "Are you there?")))) = 4%nat.
Proof.
  apply (send_message_provider_failure failing_session (py "Are you there?") failing_client).
  - reflexivity.
  - intros messages _. exists OSError. reflexivity.
Defined.

Lemma turn_chars_universal (role t : pystr) :
  turn_chars (universal_turn role (PStr t)) = Ok (length t).
Proof. reflexivity. Qed.

Lemma map_turn_chars (turns : list (pystr * pystr)) :
  map_result turn_chars (universal_of_turns turns)
  = Ok (map (fun t => length (snd t)) turns).
Proof.
  induction turns as [|[role t] turns IH]; [reflexivity|].
  change (universal_of_turns ((role, t) :: turns))
    with (universal_turn role (PStr t) :: universal_of_turns turns).
  cbn [map_result]. rewrite turn_chars_universal. cbn [bind]. rewrite IH. reflexivity.
Qed.

(** C9.  For a universal history, [count_history_tokens] returns the number
    of characters of the texts of the turns divided by four, rounded down;
    for an empty and for an absent history it returns zero. *)
Theorem count_history_tokens_quarter (turns : list (pystr * pystr)) :
  count_history_tokens (Some (universal_of_turns turns))
  = Ok (Z.of_nat (total_chars turns) / 4)%Z
  /\ count_history_tokens (Some []) = Ok 0%Z
  /\ count_history_tokens None = Ok 0%Z.
Proof.
  split; [|split; reflexivity].
  destruct turns as [|t turns]; [reflexivity|].
  unfold count_history_tokens, total_chars.
  change (universal_of_turns (t :: turns))
    with (universal_turn (fst t) (PStr (snd t)) :: universal_of_turns turns).
  change (universal_turn (fst t) (PStr (snd t)) :: universal_of_turns turns)
    with (universal_of_turns (t :: turns)).
  destruct (universal_of_turns (t :: turns)) eqn:E; [discriminate|].
  rewrite <- E, map_turn_chars. reflexivity.
Qed.

Example count_history_tokens_sample :
  count_history_tokens (Some sample_history) = Ok 3%Z.
Proof. reflexivity. Qed.

(** * Further properties of the session store *)

(** ** Splitting and joining names *)

Lemma split_char_cons (sep c : N) (s : pystr) :
  exists w ws, split_char sep s = w :: ws
    /\ split_char sep (c :: s) = if N.eqb c sep then [] :: w :: ws else (c :: w) :: ws.
Proof.
  assert (H : exists w ws, split_char sep s = w :: ws).
  { destruct s as [|x s]; [now exists [], []|].
    cbn [split_char]. destruct (split_char sep s) as [|w ws]; [now exists [], []|].
    destruct (N.eqb x sep); eauto. }
  destruct H as [w [ws H]]. exists w, ws. split; [exact H|].
  cbn [split_char]. now rewrite H.
Qed.

Lemma split_char_no_sep (sep : N) (s : pystr) :
  contains_char sep s = false -> split_char sep s = [s].
Proof.
  induction s as [|c s IH]; [reflexivity|].
  cbn [contains_char existsb]. intros H. apply orb_false_iff in H as [Hc Hs].
  cbn [split_char]. fold (contains_char sep s) in Hs. rewrite (IH Hs).
  now rewrite N.eqb_sym, Hc.
Qed.

Lemma split_char_app_last (sep : N) (a b : pystr) :
  contains_char sep b = false ->
  split_char sep (a ++ sep :: b) = split_char sep a ++ [b].
Proof.
  intros Hb. induction a as [|c a IH].
  - cbn [app split_char]. now rewrite (split_char_no_sep sep b Hb), N.eqb_refl.
  - destruct (split_char_cons sep c a) as [w [ws [Ha Hc]]].
    rewrite Hc. cbn [app split_char]. rewrite IH, Ha. cbn [app].
    destruct (N.eqb c sep); reflexivity.
Qed.

Lemma join_split_char (sep : N) (s : pystr) : join_with [sep] (split_char sep s) = s.
Proof.
  induction s as [|c s IH]; [reflexivity|].
  destruct (split_char_cons sep c s) as [w [ws [Hs Hc]]].
  rewrite Hc. rewrite Hs in IH.
  destruct (N.eqb c sep) eqn:E.
  - apply N.eqb_eq in E. subst c.
    change (join_with [sep] ([] :: w :: ws)) with ([] ++ [sep] ++ join_with [sep] (w :: ws)).
    now rewrite IH.
  - destruct ws as [|w' ws].
    + cbn [join_with] in *. now rewrite IH.
    + change (join_with [sep] ((c :: w) :: w' :: ws))
        with (c :: (w ++ [sep] ++ join_with [sep] (w' :: ws))).
      change (join_with [sep] (w :: w' :: ws))
        with (w ++ [sep] ++ join_with [sep] (w' :: ws)) in IH.
      now rewrite IH.
Qed.

(** the friendly part of [<name>_<short>], as both the listing and the
    display name compute it *)
Lemma friendly_part_of_name (name short : pystr) :
  contains_char underscore short = false ->
  join_with (py "_") (removelast (split_char underscore (name ++ py "_" ++ short))) = name.
Proof.
  intros H. change (name ++ py "_" ++ short) with (name ++ underscore :: short).
  rewrite (split_char_app_last underscore name short H), removelast_last.
  apply join_split_char.
Qed.

Lemma slice_drop_last_app (x p : pystr) : slice_drop_last (length p) (x ++ p) = x.
Proof.
  unfold slice_drop_last. rewrite length_app.
  replace (length x + length p - length p)%nat with (length x + 0)%nat by lia.
  rewrite firstn_app_2, firstn_O. apply app_nil_r.
Qed.

Lemma contains_char_app (c : N) (a b : pystr) :
  contains_char c (a ++ b) = contains_char c a || contains_char c b.
Proof. unfold contains_char. apply existsb_app. Qed.

Section DisplayFacts.
Variable LOG_DIR : pystr.
Variable exn_text : exn -> pystr.

Lemma basename_log_path (n : pystr) :
  contains_char 47 n = false -> basename (log_path LOG_DIR n) = n.
Proof.
  intros H. unfold basename, log_path.
  change (LOG_DIR ++ py "/" ++ n) with (LOG_DIR ++ 47 :: n).
  rewrite (split_char_app_last 47 LOG_DIR n H). apply last_last.
Qed.

Lemma log_path_cons (n : pystr) : exists c t, log_path LOG_DIR n = c :: t.
Proof.
  unfold log_path. destruct LOG_DIR as [|c t]; cbn; eauto.
Qed.


Lemma display_name_current (st : storage) (sid name short : pystr) :
  find_session_file LOG_DIR st sid
  = Some (log_path LOG_DIR (name ++ py "_" ++ short ++ py ".json")) ->
  contains_char 47 (name ++ py "_" ++ short ++ py ".json") = false ->
  contains_char underscore short = false ->
  endswith short (py "-log") = false ->
  get_session_display_name LOG_DIR st sid = name.
Proof.
  intros Hfind Hslash Hus Hlog. unfold get_session_display_name. rewrite Hfind.
  destruct (log_path_cons (name ++ py "_" ++ short ++ py ".json")) as [c [t E]].
  rewrite E, <- E. rewrite (basename_log_path _ Hslash).
  rewrite (not_legacy_name name short Hlog).
  replace (name ++ py "_" ++ short ++ py ".json")
    with ((name ++ py "_" ++ short) ++ py ".json") by now rewrite <- !app_assoc.
  pose proof (slice_drop_last_app (name ++ py "_" ++ short) (py ".json")) as Hd.
  change (length (py ".json")) with 5%nat in Hd. rewrite Hd.
  rewrite contains_char_app, (contains_char_app underscore (py "_") short).
  cbn [contains_char existsb py list_ascii_of_string map orb].
  change (N_of_ascii "_") with underscore. rewrite N.eqb_refl, orb_true_r.
  cbn [orb]. now apply friendly_part_of_name.
Qed.

(** X2.  When the file found for a session is a current-format file
    [<name>_<short>.json] whose short part holds no underscore and does not
    end in [-log], the display name of the session is [<name>], underscores
    of the name included. *)
Theorem display_name_of_current_file (st : storage) (sid name short : pystr) :
  find_session_file LOG_DIR st sid
  = Some (log_path LOG_DIR (name ++ py "_" ++ short ++ py ".json")) ->
  contains_char 47 (name ++ py "_" ++ short ++ py ".json") = false ->
  contains_char underscore short = false ->
  endswith short (py "-log") = false ->
  get_session_display_name LOG_DIR st sid = name.
Proof. apply display_name_current. Qed.

(** X3.  The display name is the short id, the first eight characters of
    the session id, when the session has no file and when its file is the
    legacy one. *)
Theorem display_name_short_id (st : storage) (sid : pystr) :
  contains_char 47 sid = false ->
  find_session_file LOG_DIR st sid = None
  \/ find_session_file LOG_DIR st sid = Some (log_path LOG_DIR (sid ++ py "-log.json")) ->
  get_session_display_name LOG_DIR st sid = slice_to 8 sid.
Proof.
  intros Hslash [H|H]; unfold get_session_display_name; rewrite H; [reflexivity|].
  destruct (log_path_cons (sid ++ py "-log.json")) as [c [t E]].
  rewrite E, <- E. rewrite basename_log_path.
  - now rewrite endswith_app.
  - rewrite contains_char_app, Hslash. reflexivity.
Qed.

End DisplayFacts.

Lemma display_name_of_current_file_witness :
  get_session_display_name sample_dir two_names sample_id = py "Hello_world".
Proof.
  apply (display_name_of_current_file sample_dir two_names sample_id
           (py "Hello_world") (py "abcdef12")); reflexivity.
Defined.

Lemma display_name_short_id_witness :
  get_session_display_name sample_dir both_formats sample_id = py "abcdef12".
Proof.
  apply (display_name_short_id sample_dir both_formats sample_id); [reflexivity|].
  right. reflexivity.
Defined.

(** ** Files of the storage directory *)

Lemma lookup_put_same (n : pystr) (c : option pyval) (es : list (pystr * option pyval)) :
  lookup_file n (put_file n c es) = Some c.
Proof.
  induction es as [|[m c'] es IH]; cbn [put_file lookup_file].
  - now rewrite pystr_eqb_refl.
  - destruct (pystr_eqb m n) eqn:E; cbn [lookup_file]; now rewrite E.
Qed.


Lemma names_put_present (n : pystr) (c : option pyval) (es : list (pystr * option pyval)) :
  In n (map fst es) -> map fst (put_file n c es) = map fst es.
Proof.
  induction es as [|[m c'] es IH]; [intros []|].
  intros H. cbn [put_file]. destruct (pystr_eqb m n) eqn:E; [reflexivity|].
  cbn [map fst]. f_equal. apply IH. destruct H as [H|H]; [|exact H].
  cbn in H. subst m. now rewrite pystr_eqb_refl in E.
Qed.

Lemma lookup_delete_same (n : pystr) (es : list (pystr * option pyval)) :
  lookup_file n (delete_file n es) = None.
Proof.
  induction es as [|[m c] es IH]; [reflexivity|].
  cbn [delete_file filter fst]. destruct (pystr_eqb m n) eqn:E; cbn [negb]; [exact IH|].
  cbn [lookup_file]. rewrite E. exact IH.
Qed.

Lemma lookup_delete_other (m n : pystr) (es : list (pystr * option pyval)) :
  m <> n -> lookup_file m (delete_file n es) = lookup_file m es.
Proof.
  intros Hmn. induction es as [|[k c] es IH]; [reflexivity|].
  cbn [delete_file filter fst]. destruct (pystr_eqb k n) eqn:E; cbn [negb lookup_file].
  - apply pystr_eqb_eq in E. subst k.
    assert (E : pystr_eqb n m = false) by (apply pystr_eqb_neq; congruence).
    rewrite E. exact IH.
  - destruct (pystr_eqb k m); [reflexivity|exact IH].
Qed.

Lemma names_delete (n : pystr) (es : list (pystr * option pyval)) :
  map fst (delete_file n es) = filter (fun m => negb (pystr_eqb m n)) (map fst es).
Proof.
  induction es as [|[m c] es IH]; [reflexivity|].
  cbn [delete_file filter map fst]. destruct (pystr_eqb m n); cbn [negb map fst];
    [exact IH|f_equal; exact IH].
Qed.

Lemma lookup_file_In (n : pystr) (es : list (pystr * option pyval)) :
  In n (map fst es) -> exists c, lookup_file n es = Some c.
Proof.
  induction es as [|[m c] es IH]; [intros []|].
  intros H. cbn [lookup_file]. destruct (pystr_eqb m n) eqn:E; [eauto|].
  apply IH. destruct H as [H|H]; [|exact H].
  cbn in H. subst m. now rewrite pystr_eqb_refl in E.
Qed.

Section StorageFacts.
Variable LOG_DIR : pystr.
Variable exn_text : exn -> pystr.

(** the lookup of a session looks at the names only *)
Lemma find_session_file_names (st st' : storage) (sid : pystr) :
  dir_present st = dir_present st' ->
  listed_names st = listed_names st' ->
  find_session_file LOG_DIR st sid = find_session_file LOG_DIR st' sid.
Proof.
  intros Hd Hn. unfold find_session_file, path_exists. now rewrite Hd, Hn.
Qed.

Lemma json_load_log_path (st : storage) (n : pystr) (c : option pyval) :
  dir_present st = true ->
  lookup_file n (dir_entries st) = Some c ->
  json_load LOG_DIR st (log_path LOG_DIR n)
  = match c with Some v => Ok v | None => Raise JSONDecodeError end.
Proof.
  intros Hd Hl. unfold json_load. now rewrite Hd, name_in_log_dir_log_path, Hl.
Qed.

Lemma remove_found_file_aux (st : storage) (sid n : pystr) :
  find_session_file LOG_DIR st sid = Some (log_path LOG_DIR n) ->
  remove_session_file LOG_DIR exn_text st sid
  = ({| dir_present := true; dir_entries := delete_file n (dir_entries st) |}, (true, None))
  /\ path_exists LOG_DIR {| dir_present := true; dir_entries := delete_file n (dir_entries st) |}
       (log_path LOG_DIR n) = false
  /\ listed_names {| dir_present := true; dir_entries := delete_file n (dir_entries st) |}
     = filter (fun m => negb (pystr_eqb m n)) (listed_names st).
Proof.
  intros Hfind.
  destruct (find_session_file_in_log_dir LOG_DIR st sid _ Hfind) as [n' [E' [Hin Hd]]].
  apply log_path_inj in E'. subst n'.
  assert (Hnames : listed_names {| dir_present := true;
                                   dir_entries := delete_file n (dir_entries st) |}
                   = filter (fun m => negb (pystr_eqb m n)) (listed_names st))
    by apply names_delete.
  split; [|split; [|exact Hnames]].
  - unfold remove_session_file. rewrite Hfind.
    destruct (log_path_cons LOG_DIR n) as [c [t E]]. rewrite E, <- E.
    unfold os_remove.
    assert (He : path_exists LOG_DIR st (log_path LOG_DIR n) = true)
      by now apply path_exists_log_path.
    now rewrite He, name_in_log_dir_log_path.
  - destruct (path_exists LOG_DIR _ (log_path LOG_DIR n)) eqn:He; [|reflexivity].
    apply path_exists_log_path in He as [_ He].
    rewrite Hnames in He. apply filter_In in He as [_ He].
    now rewrite pystr_eqb_refl in He.
Qed.

(** X4.  Once the file of a session is found, [remove_session_file]
    succeeds: the file is gone from the directory afterwards, and every other
    file is as it was. *)
Theorem remove_found_file (st : storage) (sid p : pystr) :
  find_session_file LOG_DIR st sid = Some p ->
  exists st',
    remove_session_file LOG_DIR exn_text st sid = (st', (true, None))
    /\ dir_present st' = true
    /\ path_exists LOG_DIR st' p = false
    /\ forall m, log_path LOG_DIR m <> p ->
         lookup_file m (dir_entries st') = lookup_file m (dir_entries st).
Proof.
  intros Hfind.
  destruct (find_session_file_in_log_dir LOG_DIR st sid p Hfind) as [n [-> [Hin Hd]]].
  destruct (remove_found_file_aux st sid n Hfind) as [Hrem [Hgone _]].
  eexists. split; [exact Hrem|]. split; [reflexivity|]. split; [exact Hgone|].
  intros m Hm. cbn [dir_entries]. apply lookup_delete_other. congruence.
Qed.

(** X5.  Removing a session that is stored under both formats deletes the
    legacy file only: the session is still found afterwards, in a
    current-format file that was in the directory before and is unchanged. *)
Theorem remove_leaves_current_format (st : storage) (sid cur : pystr) :
  dir_present st = true ->
  In (sid ++ py "-log.json") (listed_names st) ->
  In cur (listed_names st) ->
  endswith cur (py "_" ++ slice_to 8 sid ++ py ".json") = true ->
  cur <> sid ++ py "-log.json" ->
  exists st' cur',
    remove_session_file LOG_DIR exn_text st sid = (st', (true, None))
    /\ path_exists LOG_DIR st' (log_path LOG_DIR (sid ++ py "-log.json")) = false
    /\ find_session_file LOG_DIR st' sid = Some (log_path LOG_DIR cur')
    /\ endswith cur' (py "_" ++ slice_to 8 sid ++ py ".json") = true
    /\ lookup_file cur' (dir_entries st') = lookup_file cur' (dir_entries st)
    /\ In cur' (listed_names st).
Proof.
  intros Hd Hleg Hcur Hsuf Hneq.
  pose proof (find_prefers_legacy LOG_DIR st sid Hd Hleg) as Hfind.
  destruct (remove_found_file_aux st sid _ Hfind) as [Hrem [Hgone Hnames]].
  set (st' := {| dir_present := true;
                 dir_entries := delete_file (sid ++ py "-log.json") (dir_entries st) |}) in *.
  assert (Hin' : In cur (listed_names st')).
  { rewrite Hnames. apply filter_In. split; [exact Hcur|].
    apply negb_true_iff, pystr_eqb_neq. exact Hneq. }
  destruct (find (fun n => endswith n (py "_" ++ slice_to 8 sid ++ py ".json"))
                 (listed_names st')) as [cur'|] eqn:Hf.
  2:{ apply (find_none _ _ Hf) in Hin'. cbn beta in Hin'. congruence. }
  apply find_some in Hf as Hf'. destruct Hf' as [Hc' Hs'].
  rewrite Hnames in Hc'. apply filter_In in Hc' as [Hc' Hne'].
  apply negb_true_iff, pystr_eqb_neq in Hne'.
  exists st', cur'. repeat split; auto.
  - unfold find_session_file. cbn [dir_present st' negb]. rewrite Hgone. now rewrite Hf.
  - apply lookup_delete_other. exact Hne'.
Qed.

End StorageFacts.

(** ** Saving universal histories *)

Lemma find_app_none {A : Type} (f : A -> bool) (l : list A) (x : A) :
  find f l = None -> find f (l ++ [x]) = if f x then Some x else None.
Proof.
  induction l as [|y l IH]; [reflexivity|].
  cbn [find app]. destruct (f y); [discriminate|exact IH].
Qed.

Section SaveUniversal.
Variable LOG_DIR : pystr.
Variable db : unicode_db.
Variable isoformat_at : nat -> pystr.
Variable exn_text : exn -> pystr.

Lemma from_universal_turns (turns : list (pystr * pystr)) (now : nat) :
  from_universal isoformat_at now (universal_of_turns turns)
  = Ok (stored_turns isoformat_at now (with_text turns), (now + length (with_text turns))%nat).
Proof.
  revert now. induction turns as [|[role t] turns IH]; intros now.
  - cbn. now rewrite Nat.add_0_r.
  - change (universal_of_turns ((role, t) :: turns))
      with (universal_turn role (PStr t) :: universal_of_turns turns).
    cbn [from_universal]. rewrite entry_text_universal. cbn [bind].
    destruct t as [|c t].
    + cbn [truthy]. apply IH.
    + cbn [truthy]. rewrite entry_role_universal. cbn [bind]. rewrite IH.
      cbn [bind fst snd]. unfold with_text. cbn [filter has_text snd stored_turns length fst].
      f_equal. f_equal. lia.
Qed.


Lemma stored_serializable (sid mn sp : pystr) (turns : list (pystr * pystr)) (now : nat) :
  json_serializable (session_record sid mn sp (stored_turns isoformat_at now turns)) = true.
Proof.
  assert (H : forallb json_serializable (stored_turns isoformat_at now turns) = true).
  { revert now. induction turns as [|t turns IH]; intros now; [reflexivity|].
    cbn [stored_turns forallb]. rewrite IH. reflexivity. }
  unfold session_record. cbn [json_serializable forallb snd]. now rewrite H.
Qed.

Lemma first_user_message_turns (turns : list (pystr * pystr)) :
  first_user_message (universal_of_turns turns)
  = Ok (match first_user_text turns with Some t => PStr t | None => PNone end).
Proof.
  unfold first_user_text.
  induction turns as [|[role t] turns IH]; [reflexivity|].
  change (universal_of_turns ((role, t) :: turns))
    with (universal_turn role (PStr t) :: universal_of_turns turns).
  cbn [first_user_message find fst snd]. rewrite entry_role_universal. cbn [bind py_eq_str].
  destruct (pystr_eqb role (py "user")); [apply entry_text_universal|exact IH].
Qed.

Lemma save_target_new (st : storage) (sid : pystr) (turns : list (pystr * pystr)) :
  find_session_file LOG_DIR st sid = None ->
  save_target LOG_DIR db st sid (universal_of_turns turns)
  = Ok (log_path LOG_DIR (new_session_name db sid turns)).
Proof.
  intros H. unfold save_target, new_session_name. rewrite H, first_user_message_turns.
  cbn [bind]. destruct (first_user_text turns) as [[|c t]|]; reflexivity.
Qed.

Lemma new_session_name_shape (sid : pystr) (turns : list (pystr * pystr)) :
  new_session_name db sid turns = sid ++ py "-log.json"
  \/ endswith (new_session_name db sid turns) (py "_" ++ slice_to 8 sid ++ py ".json") = true.
Proof.
  unfold new_session_name. destruct (first_user_text turns) as [[|c t]|]; auto.
  right. unfold generate_friendly_filename, generate_friendly_filename_n, short_id_of.
  rewrite <- !app_assoc. apply endswith_app.
Qed.

Lemma find_none_inv (st : storage) (sid : pystr) :
  dir_present st = true ->
  find_session_file LOG_DIR st sid = None ->
  ~ In (sid ++ py "-log.json") (listed_names st)
  /\ find (fun n => endswith n (py "_" ++ slice_to 8 sid ++ py ".json")) (listed_names st) = None.
Proof.
  unfold find_session_file. intros Hd H. rewrite Hd in H. cbn [negb] in H.
  destruct (path_exists LOG_DIR st _) eqn:He; [discriminate|].
  destruct (find _ (listed_names st)) eqn:Hf; [discriminate|].
  split; [|reflexivity]. intros Hin.
  assert (path_exists LOG_DIR st (log_path LOG_DIR (sid ++ py "-log.json")) = true)
    by (apply path_exists_log_path; auto).
  congruence.
Qed.

Lemma new_session_name_fresh (st : storage) (sid : pystr) (turns : list (pystr * pystr)) :
  dir_present st = true ->
  find_session_file LOG_DIR st sid = None ->
  ~ In (new_session_name db sid turns) (listed_names st).
Proof.
  intros Hd Hfind. destruct (find_none_inv st sid Hd Hfind) as [Hleg Hscan].
  destruct (new_session_name_shape sid turns) as [-> | He]; [exact Hleg|].
  intros Hin. apply (find_none _ _ Hscan) in Hin. cbn beta in Hin. congruence.
Qed.

(** the file a save of universal turns writes, and that the lookup finds it *)
Lemma save_universal_core (st : storage) (now : nat) (sid sp mn : pystr)
  (turns : list (pystr * pystr)) :
  dir_present st = true ->
  (2 <= length turns)%nat ->
  exists n,
    save_session_history LOG_DIR db isoformat_at exn_text {| fs := st; ticks := now |} sid
      (universal_of_turns turns) sp mn
    = Ok ({| fs := {| dir_present := true;
                      dir_entries :=
                        put_file n
                          (Some (session_record sid mn sp
                                   (stored_turns isoformat_at now (with_text turns))))
                          (dir_entries st) |};
             ticks := (now + length (with_text turns))%nat |},
          (true, None))
    /\ ((find_session_file LOG_DIR st sid = Some (log_path LOG_DIR n)
         /\ In n (listed_names st))
        \/ (find_session_file LOG_DIR st sid = None
            /\ n = new_session_name db sid turns))
    /\ find_session_file LOG_DIR
         {| dir_present := true;
            dir_entries :=
              put_file n
                (Some (session_record sid mn sp
                         (stored_turns isoformat_at now (with_text turns))))
                (dir_entries st) |} sid
       = Some (log_path LOG_DIR n).
Proof.
  intros Hd Hlen.
  assert (Hsave : forall n,
             save_target LOG_DIR db st sid (universal_of_turns turns) = Ok (log_path LOG_DIR n) ->
             save_session_history LOG_DIR db isoformat_at exn_text {| fs := st; ticks := now |}
               sid (universal_of_turns turns) sp mn
             = Ok ({| fs := {| dir_present := true;
                               dir_entries :=
                                 put_file n
                                   (Some (session_record sid mn sp
                                            (stored_turns isoformat_at now (with_text turns))))
                                   (dir_entries st) |};
                      ticks := (now + length (with_text turns))%nat |},
                   (true, None))).
  { intros n Ht. unfold save_session_history.
    assert (Hl : (length (universal_of_turns turns) <? 2)%nat = false).
    { apply Nat.ltb_ge. unfold universal_of_turns. now rewrite length_map. }
    rewrite Hl. cbn [fs ticks]. rewrite Ht. cbn [bind].
    rewrite from_universal_turns. cbn [bind fst snd].
    unfold json_dump. now rewrite Hd, name_in_log_dir_log_path, stored_serializable. }
  destruct (find_session_file LOG_DIR st sid) as [p|] eqn:Hfind.
  - destruct (find_session_file_in_log_dir LOG_DIR st sid p Hfind) as [n [-> [Hin _]]].
    exists n. split; [|split].
    + apply Hsave. unfold save_target. now rewrite Hfind.
    + left. auto.
    + rewrite <- Hfind. apply find_session_file_names; [now rewrite Hd|].
      unfold listed_names. cbn [dir_entries]. now apply names_put_present.
  - exists (new_session_name db sid turns). split; [|split].
    + apply Hsave. now apply save_target_new.
    + right. auto.
    + pose proof (new_session_name_fresh st sid turns Hd Hfind) as Hfresh.
      destruct (find_none_inv st sid Hd Hfind) as [Hleg Hscan].
      set (n := new_session_name db sid turns) in *.
      unfold find_session_file. cbn [dir_present negb].
      assert (Hnames : listed_names
                         {| dir_present := true;
                            dir_entries :=
                              put_file n
                                (Some (session_record sid mn sp
                                         (stored_turns isoformat_at now (with_text turns))))
                                (dir_entries st) |}
                       = listed_names st ++ [n]).
      { unfold listed_names. cbn [dir_entries].
        rewrite (put_file_new _ _ _ Hfresh), map_app. reflexivity. }
      destruct (path_exists LOG_DIR _ (log_path LOG_DIR (sid ++ py "-log.json"))) eqn:He.
      * apply path_exists_log_path in He as [_ He]. rewrite Hnames in He.
        apply in_app_or in He as [He|[He|[]]]; [contradiction|]. now rewrite He.
      * rewrite Hnames, (find_app_none _ _ n Hscan).
        destruct (new_session_name_shape sid turns) as [E|E]; fold n in E.
        -- exfalso.
           assert (path_exists LOG_DIR
                     {| dir_present := true;
                        dir_entries :=
                          put_file n
                            (Some (session_record sid mn sp
                                     (stored_turns isoformat_at now (with_text turns))))
                            (dir_entries st) |}
                     (log_path LOG_DIR (sid ++ py "-log.json")) = true).
           { apply path_exists_log_path. split; [reflexivity|].
             rewrite Hnames, <- E. apply in_or_app. right. now left. }
           congruence.
        -- now rewrite E.
Qed.

End SaveUniversal.

Section SaveTheorems.
Variable LOG_DIR : pystr.
Variable db : unicode_db.
Variable isoformat_at : nat -> pystr.
Variable exn_text : exn -> pystr.
Variable format_minute : pystr -> option pystr.




(** X9.  Without the storage directory no session is found: loading
    returns the empty history with the message of a new session, removing and
    renaming fail with their not-found messages, the display name is the
    short id and a save of two or more turns returns a write error, all
    leaving the storage as it is; only [list_sessions] raises. *)
Theorem missing_directory (st : storage) (now : nat) (sid sp mn new_name : pystr)
  (turns : list (pystr * pystr)) :
  dir_present st = false ->
  find_session_file LOG_DIR st sid = None
  /\ load_session_history LOG_DIR st sid
     = Ok ([], Some (py "Session log file for session '" ++ slice_to 8 sid
                     ++ py "...' does not exist. Starting new session."))
  /\ remove_session_file LOG_DIR exn_text st sid
     = (st, (false, Some (py "Session file for ID '" ++ slice_to 8 sid ++ py "...' not found.")))
  /\ rename_session_file LOG_DIR db exn_text st sid new_name
     = (st, (false, Some (py "Session file for ID '" ++ slice_to 8 sid ++ py "...' not found."),
             None))
  /\ get_session_display_name LOG_DIR st sid = slice_to 8 sid
  /\ list_sessions LOG_DIR exn_text format_minute st = Raise OSError
  /\ ((2 <= length turns)%nat ->
      save_session_history LOG_DIR db isoformat_at exn_text {| fs := st; ticks := now |} sid
        (universal_of_turns turns) sp mn
      = Ok ({| fs := st; ticks := (now + length (with_text turns))%nat |},
            (false,
             Some (py "Error writing to file "
                   ++ log_path LOG_DIR (new_session_name db sid turns)
                   ++ py ": " ++ exn_text OSError)))).
Proof.
  intros Hd.
  assert (Hfind : find_session_file LOG_DIR st sid = None).
  { unfold find_session_file. now rewrite Hd. }
  split; [exact Hfind|].
  split; [unfold load_session_history; now rewrite Hfind|].
  split; [unfold remove_session_file; now rewrite Hfind|].
  split; [unfold rename_session_file; now rewrite Hfind|].
  split; [unfold get_session_display_name; now rewrite Hfind|].
  split; [unfold list_sessions, listdir; now rewrite Hd|].
  intros Hlen. unfold save_session_history.
  assert (Hl : (length (universal_of_turns turns) <? 2)%nat = false).
  { apply Nat.ltb_ge. unfold universal_of_turns. now rewrite length_map. }
  rewrite Hl. cbn [fs ticks]. rewrite (save_target_new LOG_DIR db st sid turns Hfind).
  cbn [bind]. rewrite from_universal_turns. cbn [bind fst snd].
  unfold json_dump. now rewrite Hd.
Qed.

End SaveTheorems.

(** ** Renaming a file *)

Lemma delete_absent (n : pystr) (es : list (pystr * option pyval)) :
  ~ In n (map fst es) -> delete_file n es = es.
Proof.
  induction es as [|[m c] es IH]; [reflexivity|].
  intros H. cbn [delete_file filter fst].
  destruct (pystr_eqb m n) eqn:E.
  - apply pystr_eqb_eq in E. exfalso. apply H. now left.
  - cbn [negb]. f_equal. apply IH. intros Hin. apply H. now right.
Qed.

Lemma lookup_move_new (o new : pystr) (es : list (pystr * option pyval)) :
  ~ In new (map fst es) -> lookup_file new (move_file o new es) = lookup_file o es.
Proof.
  induction es as [|[k c] es IH]; [reflexivity|].
  intros H. cbn [move_file lookup_file].
  assert (Hk : pystr_eqb k new = false).
  { apply pystr_eqb_neq. intros ->. apply H. now left. }
  destruct (pystr_eqb k o) eqn:E; cbn [lookup_file].
  - now rewrite pystr_eqb_refl.
  - rewrite Hk. apply IH. intros Hin. apply H. now right.
Qed.

Lemma lookup_absent (n : pystr) (es : list (pystr * option pyval)) :
  ~ In n (map fst es) -> lookup_file n es = None.
Proof.
  induction es as [|[k c] es IH]; [reflexivity|].
  intros H. cbn [lookup_file]. destruct (pystr_eqb k n) eqn:E.
  - apply pystr_eqb_eq in E. exfalso. apply H. now left.
  - apply IH. intros Hin. apply H. now right.
Qed.

Lemma lookup_move_old (o new : pystr) (es : list (pystr * option pyval)) :
  NoDup (map fst es) -> o <> new -> lookup_file o (move_file o new es) = None.
Proof.
  intros Hnd Hne. induction es as [|[k c] es IH]; [reflexivity|].
  cbn [map fst] in Hnd. inversion Hnd as [|? ? Hk Hnd']; subst.
  cbn [move_file]. destruct (pystr_eqb k o) eqn:E; cbn [lookup_file].
  - apply pystr_eqb_eq in E. subst k.
    assert (E : pystr_eqb new o = false) by (apply pystr_eqb_neq; congruence).
    rewrite E. now apply lookup_absent.
  - rewrite E. now apply IH.
Qed.

Lemma lookup_move_other (m o new : pystr) (es : list (pystr * option pyval)) :
  m <> o -> m <> new -> lookup_file m (move_file o new es) = lookup_file m es.
Proof.
  intros Ho Hn. induction es as [|[k c] es IH]; [reflexivity|].
  cbn [move_file]. destruct (pystr_eqb k o) eqn:E; cbn [lookup_file].
  - apply pystr_eqb_eq in E. subst k.
    assert (E1 : pystr_eqb new m = false) by (apply pystr_eqb_neq; congruence).
    assert (E2 : pystr_eqb o m = false) by (apply pystr_eqb_neq; congruence).
    now rewrite E1, E2.
  - now rewrite IH.
Qed.

Lemma length_move (o new : pystr) (es : list (pystr * option pyval)) :
  length (move_file o new es) = length es.
Proof.
  induction es as [|[k c] es IH]; [reflexivity|].
  cbn [move_file]. destruct (pystr_eqb k o); cbn [length]; [reflexivity|now rewrite IH].
Qed.



Section RenameMore.
Variable LOG_DIR : pystr.
Variable db : unicode_db.
Variable exn_text : exn -> pystr.


(** a rename onto a free name moves the file in place *)
Lemma rename_free_target (st : storage) (sid new_name o : pystr) :
  find_session_file LOG_DIR st sid = Some (log_path LOG_DIR o) ->
  sanitize db 50 new_name <> [] ->
  path_exists LOG_DIR st (rename_target LOG_DIR db sid new_name) = false ->
  rename_session_file LOG_DIR db exn_text st sid new_name
  = ({| dir_present := true;
        dir_entries :=
          move_file o (sanitize db 50 new_name ++ py "_" ++ slice_to 8 sid ++ py ".json")
            (dir_entries st) |},
     (true, None, Some (sanitize db 50 new_name)))
  /\ ~ In (sanitize db 50 new_name ++ py "_" ++ slice_to 8 sid ++ py ".json") (listed_names st)
  /\ In o (listed_names st)
  /\ dir_present st = true.
Proof.
  unfold rename_target. intros Hfind Hname Hfree.
  destruct (find_session_file_in_log_dir LOG_DIR st sid _ Hfind) as [o' [E' [Hin Hd]]].
  apply log_path_inj in E'. subst o'.
  set (new := sanitize db 50 new_name ++ py "_" ++ slice_to 8 sid ++ py ".json") in *.
  assert (Hnew : ~ In new (listed_names st)).
  { intros H. assert (path_exists LOG_DIR st (log_path LOG_DIR new) = true)
      by now apply path_exists_log_path. congruence. }
  split; [|auto].
  unfold rename_session_file. rewrite Hfind.
  destruct (sanitize db 50 new_name) as [|c name] eqn:E; [contradiction|].
  fold new. rewrite Hfree. cbn [andb]. unfold os_rename.
  assert (He : path_exists LOG_DIR st (log_path LOG_DIR o) = true)
    by now apply path_exists_log_path.
  rewrite He, !name_in_log_dir_log_path.
  assert (Hne : pystr_eqb o new = false).
  { apply pystr_eqb_neq. intros ->. contradiction. }
  rewrite Hne. now rewrite (delete_absent new (dir_entries st) Hnew).
Qed.

Lemma rename_outcomes_aux (st st' : storage) (sid new_name : pystr) (ok : bool)
  (err name : option pystr) :
  rename_session_file LOG_DIR db exn_text st sid new_name = (st', (ok, err, name)) ->
  (ok = false -> st' = st /\ name = None /\ err <> None)
  /\ (ok = true ->
      err = None /\ name = Some (sanitize db 50 new_name) /\ sanitize db 50 new_name <> []
      /\ find_session_file LOG_DIR st sid <> None).
Proof.
  unfold rename_session_file.
  destruct (find_session_file LOG_DIR st sid) as [old|].
  2:{ intros H. injection H as <- <- <- <-. split; [|discriminate].
      intros _. repeat split; discriminate. }
  destruct (sanitize db 50 new_name) as [|c s] eqn:E.
  { intros H. injection H as <- <- <- <-. split; [|discriminate].
    intros _. repeat split; discriminate. }
  destruct (path_exists LOG_DIR st _ && negb _).
  { intros H. injection H as <- <- <- <-. split; [|discriminate].
    intros _. repeat split; discriminate. }
  destruct (os_rename LOG_DIR st old _) as [st1|]; intros H; injection H as <- <- <- <-.
  - split; [discriminate|]. intros _. repeat split; discriminate.
  - split; [|discriminate]. intros _. repeat split; discriminate.
Qed.

(** X10.  Whatever [rename_session_file] returns, a failure comes with a
    message and no name and leaves the storage as it was; a success comes
    without a message and with the sanitized form of the requested name,
    which is not empty. *)
Theorem rename_outcomes (st st' : storage) (sid new_name : pystr) (ok : bool)
  (err name : option pystr) :
  rename_session_file LOG_DIR db exn_text st sid new_name = (st', (ok, err, name)) ->
  (ok = false -> st' = st /\ name = None /\ err <> None)
  /\ (ok = true ->
      err = None /\ name = Some (sanitize db 50 new_name) /\ sanitize db 50 new_name <> []
      /\ find_session_file LOG_DIR st sid <> None).
Proof. apply rename_outcomes_aux. Qed.

(** X11.  A rename onto a name that is not taken moves the file: the record
    is stored under the new name, unchanged, the old name is gone, no other
    file is touched and the directory holds as many files as before. *)
Theorem rename_moves_file (st : storage) (sid new_name o : pystr) :
  NoDup (listed_names st) ->
  find_session_file LOG_DIR st sid = Some (log_path LOG_DIR o) ->
  sanitize db 50 new_name <> [] ->
  path_exists LOG_DIR st (rename_target LOG_DIR db sid new_name) = false ->
  exists st',
    rename_session_file LOG_DIR db exn_text st sid new_name
    = (st', (true, None, Some (sanitize db 50 new_name)))
    /\ lookup_file (sanitize db 50 new_name ++ py "_" ++ slice_to 8 sid ++ py ".json")
         (dir_entries st')
       = lookup_file o (dir_entries st)
    /\ lookup_file o (dir_entries st') = None
    /\ (forall m, m <> o ->
          m <> sanitize db 50 new_name ++ py "_" ++ slice_to 8 sid ++ py ".json" ->
          lookup_file m (dir_entries st') = lookup_file m (dir_entries st))
    /\ length (dir_entries st') = length (dir_entries st).
Proof.
  intros Hnd Hfind Hname Hfree.
  destruct (rename_free_target st sid new_name o Hfind Hname Hfree) as [Hr [Hnew [Hin Hd]]].
  eexists. split; [exact Hr|]. cbn [dir_entries].
  split; [now apply lookup_move_new|].
  split; [apply lookup_move_old; [exact Hnd|intros ->; contradiction]|].
  split; [intros m Ho Hn; now apply lookup_move_other|apply length_move].
Qed.


End RenameMore.

(** ** The listing *)

Lemma pystr_leb_total (a b : pystr) : pystr_leb a b = false -> pystr_leb b a = true.
Proof.
  revert b. induction a as [|x a IH]; intros [|y b]; cbn [pystr_leb]; try discriminate;
    try reflexivity.
  destruct (N.ltb x y) eqn:Hxy; [discriminate|].
  destruct (N.eqb x y) eqn:Exy.
  - apply N.eqb_eq in Exy. subst y. rewrite N.ltb_irrefl, N.eqb_refl. apply IH.
  - intros _. apply N.ltb_ge in Hxy. apply N.eqb_neq in Exy.
    assert (H : N.ltb y x = true) by (apply N.ltb_lt; lia). now rewrite H.
Qed.

Section OrderFacts.
Context {A : Type} (key : A -> pystr).

Lemma insert_sorted_ascending (x : A) (l : list A) :
  ascending (map key l) = true -> ascending (map key (insert_sorted key x l)) = true.
Proof.
  induction l as [|y l IH]; [reflexivity|].
  intros H. cbn [insert_sorted].
  destruct (pystr_leb (key x) (key y)) eqn:E.
  - change (ascending (map key (x :: y :: l)))
      with (pystr_leb (key x) (key y) && ascending (map key (y :: l))).
    now rewrite E, H.
  - apply pystr_leb_total in E.
    assert (Hl : ascending (map key l) = true).
    { destruct l as [|z l]; [reflexivity|].
      change (ascending (map key (y :: z :: l)))
        with (pystr_leb (key y) (key z) && ascending (map key (z :: l))) in H.
      now apply andb_true_iff in H. }
    specialize (IH Hl).
    destruct l as [|z l].
    + cbn [insert_sorted map ascending]. now rewrite E.
    + cbn [insert_sorted] in *.
      change (ascending (map key (y :: z :: l)))
        with (pystr_leb (key y) (key z) && ascending (map key (z :: l))) in H.
      apply andb_true_iff in H as [Hyz _].
      destruct (pystr_leb (key x) (key z)).
      * change (ascending (map key (y :: x :: z :: l)))
          with (pystr_leb (key y) (key x) && ascending (map key (x :: z :: l))).
        now rewrite E, IH.
      * remember (insert_sorted key x l) as r.
        change (ascending (map key (y :: z :: r)))
          with (pystr_leb (key y) (key z) && ascending (map key (z :: r))).
        now rewrite Hyz, IH.
Qed.

Lemma sorted_by_ascending (l : list A) : ascending (map key (sorted_by key l)) = true.
Proof.
  induction l as [|x l IH]; [reflexivity|].
  cbn [sorted_by]. now apply insert_sorted_ascending.
Qed.
End OrderFacts.

Lemma classify_file_length (files : list pystr) (f : pystr) :
  (length (classify_file files f) <= 1)%nat.
Proof.
  unfold classify_file.
  repeat match goal with
         | |- context [if ?b then _ else _] => destruct b
         end; cbn [length]; lia.
Qed.

Lemma classify_file_shape (files : list pystr) (f : pystr)
  (item : pystr * option pystr * option pystr) :
  In item (classify_file files f) ->
  endswith f (py ".json") = true
  /\ f <> py "azor-wal.json"
  /\ (endswith f (py "-log.json") = true
      \/ contains_char underscore (slice_drop_last 5 f) = true).
Proof.
  unfold classify_file.
  destruct (endswith f (py ".json")) eqn:E1; [|intros []].
  destruct (pystr_eqb f (py "azor-wal.json")) eqn:E2; [intros []|]. cbn [andb negb].
  apply pystr_eqb_neq in E2.
  destruct (endswith f (py "-log.json")) eqn:E3; [auto|].
  destruct (contains_char underscore (slice_drop_last 5 f)) eqn:E4; [auto|intros []].
Qed.

(** X13.  [list_sessions] reports only on files of the directory whose
    names end in [.json], never on [azor-wal.json], and on a name that is
    not in the legacy format only if an underscore precedes its [.json]; it
    makes at most one entry for each file. *)
Theorem listing_skips_other_files (files : list pystr) :
  (forall f, In f (map (fun x => fst (fst x)) (sorted_session_files files)) ->
     In f files
     /\ endswith f (py ".json") = true
     /\ f <> py "azor-wal.json"
     /\ (endswith f (py "-log.json") = true
         \/ contains_char underscore (slice_drop_last 5 f) = true))
  /\ (length (sorted_session_files files) <= length files)%nat.
Proof.
  split.
  - intros f H. apply in_map_iff in H as [item [Hkey Hin]].
    unfold sorted_session_files in Hin. apply sorted_by_In in Hin.
    unfold session_files in Hin. apply in_flat_map in Hin as [g [Hg Hitem]].
    pose proof (classify_file_name _ _ _ Hitem) as Hname.
    rewrite Hkey in Hname. subst g.
    split; [exact Hg|]. exact (classify_file_shape _ _ _ Hitem).
  - unfold sorted_session_files. rewrite sorted_by_length. unfold session_files.
    generalize files at 1. intros all.
    induction files as [|f files IH]; [reflexivity|].
    cbn [flat_map length]. rewrite length_app.
    pose proof (classify_file_length all f). lia.
Qed.

(** X14.  The files [list_sessions] reports on are the collected ones, each
    once, in ascending order of their names. *)
Theorem listing_in_name_order (files : list pystr) :
  ascending (map (fun x => fst (fst x)) (sorted_session_files files)) = true
  /\ length (sorted_session_files files) = length (session_files files)
  /\ forall item, In item (sorted_session_files files) <-> In item (session_files files).
Proof.
  unfold sorted_session_files. split; [apply sorted_by_ascending|].
  split; [apply sorted_by_length|]. intros item. apply sorted_by_In.
Qed.

(** ** Entries of the listing *)

Lemma stored_turns_app (iso : nat -> pystr) (a b : list (pystr * pystr)) (now : nat) :
  stored_turns iso now (a ++ b)
  = stored_turns iso now a ++ stored_turns iso (now + length a) b.
Proof.
  revert now. induction a as [|t a IH]; intros now.
  - cbn. now rewrite Nat.add_0_r.
  - cbn [app stored_turns length]. rewrite IH. do 3 f_equal. lia.
Qed.

Lemma stored_turns_length (iso : nat -> pystr) (a : list (pystr * pystr)) (now : nat) :
  length (stored_turns iso now a) = length a.
Proof.
  revert now. induction a as [|t a IH]; intros now; [reflexivity|].
  cbn [stored_turns length]. now rewrite IH.
Qed.

Lemma record_session_id (sid mn sp : pystr) (h : list pyval) (d : pyval) :
  py_get (session_record sid mn sp h) (py "session_id") d = Ok (PStr sid).
Proof. reflexivity. Qed.

Lemma record_history (sid mn sp : pystr) (h : list pyval) (d : pyval) :
  py_get (session_record sid mn sp h) (py "history") d = Ok (PList h).
Proof. reflexivity. Qed.


Section ListEntries.
Variable LOG_DIR : pystr.
Variable db : unicode_db.
Variable isoformat_at : nat -> pystr.
Variable exn_text : exn -> pystr.
Variable format_minute : pystr -> option pystr.

Lemma read_entry_of_record (st : storage) (f sid mn sp : pystr)
  (old friendly : option pystr) (init : list (pystr * pystr)) (t : pystr * pystr) (now : nat) :
  dir_present st = true ->
  lookup_file f (dir_entries st)
  = Some (Some (session_record sid mn sp (stored_turns isoformat_at now (init ++ [t])))) ->
  session_entry LOG_DIR exn_text format_minute st (f, old, friendly)
  = readable_entry format_minute sid
      (match friendly with Some (c :: s) => c :: s | _ => slice_to 8 sid end)
      (S (length init)) (isoformat_at (now + length init)).
Proof.
  intros Hd Hl. unfold session_entry, read_session_entry.
  rewrite (json_load_log_path LOG_DIR st f _ Hd Hl). cbn [bind].
  rewrite record_session_id. cbn [bind]. rewrite !record_history. cbn [bind py_len].
  rewrite stored_turns_length. unfold py_last.
  rewrite stored_turns_app, rev_app_distr.
  cbn [stored_turns rev app bind].
  change (py_get (PDict [(py "role", PStr (fst t));
                         (py "timestamp", PStr (isoformat_at (now + length init)));
                         (py "text", PStr (snd t))]) (py "timestamp") (PStr no_date))
    with (@Ok pyval (PStr (isoformat_at (now + length init)))).
  cbn [bind py_eq_str]. unfold readable_entry.
  rewrite length_app. cbn [length]. rewrite Nat.add_1_r.
  destruct (pystr_eqb (isoformat_at (now + length init)) no_date); cbn [negb bind].
  - destruct friendly as [[|c s]|]; reflexivity.
  - destruct (format_minute (isoformat_at (now + length init)));
      destruct friendly as [[|c s]|]; reflexivity.
Qed.

(** X15.  A record that a save has written is listed as readable: the
    entry carries the session id of the record, the friendly name of the
    file or else the short id, the number of stored turns, and the minute of
    the last turn's timestamp, or the no-activity text when that timestamp
    does not parse. *)
Theorem listing_entry_of_saved_record (st : storage) (f sid mn sp : pystr)
  (old friendly : option pystr) (init : list (pystr * pystr)) (t : pystr * pystr) (now : nat) :
  dir_present st = true ->
  lookup_file f (dir_entries st)
  = Some (Some (session_record sid mn sp (stored_turns isoformat_at now (init ++ [t])))) ->
  session_entry LOG_DIR exn_text format_minute st (f, old, friendly)
  = readable_entry format_minute sid
      (match friendly with Some (c :: s) => c :: s | _ => slice_to 8 sid end)
      (S (length init)) (isoformat_at (now + length init)).
Proof. apply read_entry_of_record. Qed.

(** X16.  A session saved while none of its turns has text is stored with
    an empty history.  It loads as the empty history with no error, yet the
    listing reports its file as unreadable: the last turn of an empty list is
    asked for, which raises [IndexError]. *)
Theorem empty_history_listed_as_error (st : storage) (now : nat) (sid sp mn : pystr)
  (turns : list (pystr * pystr)) :
  dir_present st = true ->
  (2 <= length turns)%nat ->
  with_text turns = [] ->
  exists w' f,
    save_session_history LOG_DIR db isoformat_at exn_text {| fs := st; ticks := now |} sid
      (universal_of_turns turns) sp mn
    = Ok (w', (true, None))
    /\ lookup_file f (dir_entries (fs w')) = Some (Some (session_record sid mn sp []))
    /\ load_session_history LOG_DIR (fs w') sid = Ok ([], None)
    /\ forall old friendly,
         session_entry LOG_DIR exn_text format_minute (fs w') (f, old, friendly)
         = failed_session_entry exn_text f old friendly IndexError.
Proof.
  intros Hd Hlen Hempty.
  destruct (save_universal_core LOG_DIR db isoformat_at exn_text st now sid sp mn turns Hd Hlen)
    as [n [Hsave [_ Hfind]]].
  rewrite Hempty in Hsave, Hfind. cbn [stored_turns] in Hsave, Hfind.
  eexists. exists n. split; [exact Hsave|]. cbn [fs dir_entries].
  assert (Hl : lookup_file n (put_file n (Some (session_record sid mn sp [])) (dir_entries st))
               = Some (Some (session_record sid mn sp []))) by apply lookup_put_same.
  split; [exact Hl|].
  pose proof (json_load_log_path LOG_DIR
                {| dir_present := true;
                   dir_entries := put_file n (Some (session_record sid mn sp []))
                                    (dir_entries st) |} n _ eq_refl Hl) as Hload.
  split.
  - unfold load_session_history. rewrite Hfind. now rewrite Hload.
  - intros old friendly. unfold session_entry, read_session_entry. now rewrite Hload.
Qed.



End ListEntries.

(** * Further properties of the Claude adapter *)

Lemma build_messages_turns (turns : list (pystr * pystr)) :
  build_messages (universal_of_turns turns) = Ok (messages_of turns).
Proof.
  induction turns as [|[role t] turns IH]; [reflexivity|].
  change (universal_of_turns ((role, t) :: turns))
    with (universal_turn role (PStr t) :: universal_of_turns turns).
  cbn [build_messages].
  change (py_get (universal_turn role (PStr t)) (py "role") PNone) with (@Ok pyval (PStr role)).
  cbn [bind].
  change (py_get (universal_turn role (PStr t)) (py "parts") (PList [PDict []]))
    with (@Ok pyval (PList [PDict [(py "text", PStr t)]])).
  cbn [bind py_first].
  change (py_get (PDict [(py "text", PStr t)]) (py "text") (PStr [])) with (@Ok pyval (PStr t)).
  cbn [bind]. rewrite IH. cbn [bind py_eq_str messages_of flat_map fst snd].
  destruct (pystr_eqb role (py "user")); [reflexivity|].
  destruct (pystr_eqb role (py "model") || pystr_eqb role (py "assistant")); reflexivity.
Qed.

Lemma universal_of_turns_app (a b : list (pystr * pystr)) :
  universal_of_turns (a ++ b) = universal_of_turns a ++ universal_of_turns b.
Proof. unfold universal_of_turns. apply map_app. Qed.

(** what [send_message] leaves and returns, in each of its cases *)
Lemma send_message_shape (s : chat_session) (message : pystr) :
  exists reply,
    send_message s message
    = (with_history s (_history s ++ [universal_turn (py "user") (PStr message);
                                      universal_turn (py "model") (PStr reply)]),
       {| text := reply |})
    /\ (reply = err_text
        \/ exists create messages block blocks,
             client s = Some create
             /\ build_messages (_history s ++ [universal_turn (py "user") (PStr message)])
                = Ok messages
             /\ create (request_of s messages) = ApiResponse (Some (block :: blocks))
             /\ reply = blocks_text (block :: blocks)).
Proof.
  unfold send_message, try_send.
  destruct (build_messages _) as [messages|e] eqn:Hb; cbn [bind].
  2:{ exists err_text. rewrite <- app_assoc. auto. }
  destruct (client s) as [create|] eqn:Hc.
  2:{ exists err_text. rewrite <- app_assoc. auto. }
  destruct (create (request_of s messages)) as [e|[[|block blocks]|]] eqn:Hr;
    try (exists err_text; rewrite <- app_assoc; split; [reflexivity|now left]).
  exists (blocks_text (block :: blocks)). rewrite <- app_assoc. split; [reflexivity|].
  right. exists create, messages, block, blocks. auto.
Qed.


(** X19.  The request built from a universal history carries the turns of
    the user as they are and the turns of the model (or of an assistant)
    under the role [assistant], in order; turns of any other role, such as
    [system], are not sent. *)
Theorem messages_of_universal_history (turns : list (pystr * pystr)) :
  build_messages (universal_of_turns turns) = Ok (messages_of turns)
  /\ (forall m, In m (messages_of turns) ->
        (fst m = py "user" \/ fst m = py "assistant")
        /\ exists t, In t turns /\ snd m = PStr (snd t)
             /\ (fst m = py "user" <-> fst t = py "user"))
  /\ (forall t, In t turns ->
        fst t <> py "user" -> fst t <> py "model" -> fst t <> py "assistant" ->
        messages_of [t] = []).
Proof.
  split; [apply build_messages_turns|]. split.
  - intros m H. unfold messages_of in H. apply in_flat_map in H as [t [Ht Hm]].
    destruct (pystr_eqb (fst t) (py "user")) eqn:Eu.
    + destruct Hm as [<-|[]]. cbn [fst snd]. apply pystr_eqb_eq in Eu.
      split; [now left|]. exists t. repeat split; auto.
    + destruct (pystr_eqb (fst t) (py "model") || pystr_eqb (fst t) (py "assistant"));
        [|destruct Hm].
      destruct Hm as [<-|[]]. cbn [fst snd]. apply pystr_eqb_neq in Eu.
      split; [now right|]. exists t. repeat split; auto; intros H; [discriminate|contradiction].
  - intros t _ Hu Hm Ha. cbn [messages_of flat_map app].
    apply pystr_eqb_neq in Hu, Hm, Ha. now rewrite Hu, Hm, Ha.
Qed.

(** X20.  After a call in which the provider raised, the apology is part of
    the conversation: the request built from the history for the next call
    ends with the message of the user and with the apology as a message of
    the assistant. *)
Theorem apology_is_sent_again (s : chat_session) (message : pystr)
  (create : api_params -> api_outcome) (turns : list (pystr * pystr)) :
  _history s = universal_of_turns turns ->
  client s = Some create ->
  (forall p, exists e, create p = ApiRaise e) ->
  build_messages (_history (fst (send_message s message)))
  = Ok (messages_of turns ++ [(py "user", PStr message); (py "assistant", PStr err_text)]).
Proof.
  intros Hh Hc Hraise.
  destruct (send_message_shape s message) as [reply [Hs [->|Hok]]].
  - rewrite Hs. cbn [fst with_history _history]. rewrite Hh.
    change [universal_turn (py "user") (PStr message);
            universal_turn (py "model") (PStr err_text)]
      with (universal_of_turns [(py "user", message); (py "model", err_text)]).
    rewrite <- universal_of_turns_app, build_messages_turns.
    unfold messages_of. rewrite flat_map_app. reflexivity.
  - destruct Hok as [create' [messages [block [blocks [Hc' [_ [Hr _]]]]]]].
    assert (create' = create) by congruence. subst create'.
    destruct (Hraise (request_of s messages)) as [e He]. congruence.
Qed.

Lemma map_result_all {A B : Type} (f : A -> result B) (P : B -> Prop) (l : list A) (l' : list B) :
  (forall x y, f x = Ok y -> P y) -> map_result f l = Ok l' -> Forall P l'.
Proof.
  intros Hf. revert l'. induction l as [|x l IH]; intros l' H.
  - injection H as <-. constructor.
  - cbn [map_result] in H. destruct (f x) as [y|e] eqn:E; [|discriminate]. cbn [bind] in H.
    destruct (map_result f l) as [ys|e]; [|discriminate]. cbn [bind] in H.
    injection H as <-. constructor; eauto.
Qed.

Lemma filter_all {A : Type} (p : A -> bool) (l : list A) :
  Forall (fun x => p x = true) l -> filter p l = l.
Proof.
  induction 1 as [|x l Hx _ IH]; [reflexivity|]. cbn [filter]. now rewrite Hx, IH.
Qed.

(** X21.  A chat session created from a history keeps, in order, exactly
    the entries that are dictionaries with the keys [role] and [parts]; a
    history that [load_session_history] returned is kept whole, and an absent
    history gives an empty one. *)
Theorem create_chat_session_history (c : claude_llm_client) (instruction : pystr) :
  (forall h entry,
      In entry (_history (create_chat_session c instruction (Some h))) <->
      In entry h /\ is_dict entry = true /\ dict_has entry (py "role") = true
      /\ dict_has entry (py "parts") = true)
  /\ (forall LOG_DIR st sid h e,
        load_session_history LOG_DIR st sid = Ok (h, e) ->
        _history (create_chat_session c instruction (Some h)) = h)
  /\ _history (create_chat_session c instruction None) = [].
Proof.
  split; [|split; [|reflexivity]].
  - intros h entry. cbn [create_chat_session _history]. rewrite filter_In.
    rewrite !andb_true_iff. tauto.
  - intros LOG_DIR st sid h e H. cbn [create_chat_session _history].
    apply filter_all. unfold load_session_history in H.
    destruct (find_session_file LOG_DIR st sid) as [p|].
    2:{ injection H as <- _. constructor. }
    destruct (json_load LOG_DIR st p) as [log_data|[]]; try discriminate.
    2:{ injection H as <- _. constructor. }
    destruct (to_universal log_data) as [h'|] eqn:E; [|discriminate].
    cbn [bind] in H. injection H as <- _.
    unfold to_universal in E.
    destruct (py_get log_data (py "history") (PList [])) as [stored|]; [|discriminate].
    cbn [bind] in E. destruct (py_iter stored) as [entries|]; [|discriminate].
    cbn [bind] in E. apply (map_result_all to_universal_entry _ entries h'); [|exact E].
    intros x y Hy. unfold to_universal_entry in Hy.
    destruct (py_getitem x (py "role")) as [role|]; [|discriminate]. cbn [bind] in Hy.
    destruct (py_getitem x (py "text")) as [t|]; [|discriminate]. cbn [bind] in Hy.
    injection Hy as <-. reflexivity.
Qed.

(** X22.  A client cannot be made with an empty key, whatever the SDK does;
    a client that was made holds a handle, the key and the model name it was
    given and reports itself available; when neither constructor of the SDK
    works, or the SDK cannot be imported, the construction ends the process
    with exit code 1. *)
Theorem claude_client_construction (anthropic : option anthropic_sdk) (model key : pystr) :
  new_claude_llm_client anthropic model [] = InitValueError
  /\ (forall c, new_claude_llm_client anthropic model key = InitOk c ->
        is_available c = true /\ api_key c = key /\ key <> []
        /\ llm_model_name c = model /\ _client c <> None)
  /\ (key <> [] ->
      (anthropic = None
       \/ exists sdk, anthropic = Some sdk /\ sdk_Client sdk key = None
                      /\ sdk_Anthropic sdk key = None) ->
      new_claude_llm_client anthropic model key = InitExit 1).
Proof.
  split; [reflexivity|]. split.
  - intros c H. unfold new_claude_llm_client in H.
    destruct key as [|k key]; [discriminate|].
    destruct (_initialize_client anthropic (k :: key)) as [h|]; [|discriminate].
    injection H as <-. repeat split; discriminate.
  - intros Hk H. unfold new_claude_llm_client.
    destruct key as [|k key]; [contradiction|].
    destruct H as [->|[sdk [-> [H1 H2]]]]; [reflexivity|].
    cbn [_initialize_client]. now rewrite H1, H2.
Qed.

Lemma skipn_firstn_split (s : pystr) :
  (8 < length s)%nat ->
  exists mid, s = slice_to 4 s ++ mid ++ slice_last4 s /\ mid <> []
              /\ length (slice_to 4 s) = 4%nat /\ length (slice_last4 s) = 4%nat.
Proof.
  intros H. unfold slice_to, slice_last4.
  exists (firstn (length s - 8) (skipn 4 s)).
  assert (Hs : skipn (length s - 4) s = skipn (length s - 8) (skipn 4 s)).
  { rewrite skipn_skipn. f_equal. lia. }
  split; [|split; [|split]].
  - rewrite Hs, firstn_skipn, firstn_skipn. reflexivity.
  - intros E. apply (f_equal (@length N)) in E.
    rewrite length_firstn, length_skipn in E. cbn [length] in E. lia.
  - rewrite length_firstn. lia.
  - rewrite length_skipn. lia.
Qed.

(** X23.  The ready message shows at most eight characters of the key: of a
    key longer than eight characters the first four and the last four, with
    three dots for the rest, which is never empty; of a shorter key none. *)
Theorem masked_key_hides_key (key : pystr) :
  ((8 < length key)%nat ->
   exists first mid last,
     key = first ++ mid ++ last /\ length first = 4%nat /\ length last = 4%nat /\ mid <> []
     /\ masked_key key = first ++ py "..." ++ last)
  /\ ((length key <= 8)%nat -> masked_key key = py "****")
  /\ (length (masked_key key) <= 11)%nat.
Proof.
  unfold masked_key. destruct (8 <? length key)%nat eqn:E.
  - apply Nat.ltb_lt in E. destruct (skipn_firstn_split key E) as [mid [Hk [Hm [H1 H2]]]].
    split; [|split; [lia|]].
    + intros _. exists (slice_to 4 key), mid, (slice_last4 key). auto.
    + rewrite !length_app, H1, H2. cbn. lia.
  - apply Nat.ltb_ge in E. split; [lia|]. split; [reflexivity|]. cbn. lia.
Qed.

(** * Corpus files and training sentences *)

Section CorporaFacts.
Variable glob : pystr -> pystr -> list pystr.
Variable fnmatch : pystr -> pystr -> bool.
Variable path_name : pystr -> pystr.

(** X24.  [get_corpus_file] knows five corpus names and raises
    [ValueError] for any other.  For [PAN_TADEUSZ], which has files but no
    directory of its own, the default patterns return its files and any other
    pattern raises [KeyError]. *)
Theorem get_corpus_file_errors (name : pystr) (pattern : option pystr) :
  (~ In name [py "NKJP"; py "WOLNELEKTURY"; py "PAN_TADEUSZ"; py "MINI"; py "ALL"] ->
   get_corpus_file glob fnmatch path_name name pattern
   = CorpusValueError (py "Corpus " ++ name ++ py " not found"))
  /\ (is_default_pattern pattern = false ->
      get_corpus_file glob fnmatch path_name (py "PAN_TADEUSZ") pattern
      = CorpusKeyError (py "PAN_TADEUSZ"))
  /\ (is_default_pattern pattern = true ->
      get_corpus_file glob fnmatch path_name (py "PAN_TADEUSZ") pattern
      = CorpusFiles (glob (py "../korpus-wolnelektury") (py "pan-tadeusz-ksiega-*.txt"))).
Proof.
  split; [|split].
  - intros H. unfold get_corpus_file, CORPORA_FILES, corpora_files_listed.
    cbn [app lookup_key].
    repeat match goal with
           | |- context [pystr_eqb ?k name] =>
               let E := fresh "E" in
               destruct (pystr_eqb k name) eqn:E;
               [apply pystr_eqb_eq in E; exfalso; apply H; rewrite <- E; cbn; tauto|]
           end.
    reflexivity.
  - intros H. unfold get_corpus_file.
    change (lookup_key (py "PAN_TADEUSZ") (CORPORA_FILES glob))
      with (Some (glob (py "../korpus-wolnelektury") (py "pan-tadeusz-ksiega-*.txt"))).
    change (pystr_eqb (py "PAN_TADEUSZ") (py "ALL")) with false. cbn iota.
    rewrite H. reflexivity.
  - intros H. unfold get_corpus_file.
    change (lookup_key (py "PAN_TADEUSZ") (CORPORA_FILES glob))
      with (Some (glob (py "../korpus-wolnelektury") (py "pan-tadeusz-ksiega-*.txt"))).
    change (pystr_eqb (py "PAN_TADEUSZ") (py "ALL")) with false. cbn iota.
    rewrite H. reflexivity.
Qed.

(** X25.  The corpus [ALL] is the files of NKJP, of WOLNELEKTURY, of
    PAN_TADEUSZ and of MINI, in this order; with a pattern that is not a
    default it is narrowed, in the same order, to the files whose name
    matches the pattern. *)
Theorem get_corpus_file_all (pattern : option pystr) :
  (is_default_pattern pattern = true ->
   get_corpus_file glob fnmatch path_name (py "ALL") pattern
   = CorpusFiles (glob (py "../korpus-nkjp/output") (py "*.txt")
                  ++ glob (py "../korpus-wolnelektury") (py "*.txt")
                  ++ glob (py "../korpus-wolnelektury") (py "pan-tadeusz-ksiega-*.txt")
                  ++ glob (py "../korpus-mini") (py "*.txt")))
  /\ (forall p, pattern = Some p -> is_default_pattern pattern = false ->
      get_corpus_file glob fnmatch path_name (py "ALL") pattern
      = CorpusFiles
          (filter (fun f => fnmatch (path_name f) p)
             (glob (py "../korpus-nkjp/output") (py "*.txt")
              ++ glob (py "../korpus-wolnelektury") (py "*.txt")
              ++ glob (py "../korpus-wolnelektury") (py "pan-tadeusz-ksiega-*.txt")
              ++ glob (py "../korpus-mini") (py "*.txt")))).
Proof.
  assert (Hall : lookup_key (py "ALL") (CORPORA_FILES glob)
                 = Some (glob (py "../korpus-nkjp/output") (py "*.txt")
                         ++ glob (py "../korpus-wolnelektury") (py "*.txt")
                         ++ glob (py "../korpus-wolnelektury") (py "pan-tadeusz-ksiega-*.txt")
                         ++ glob (py "../korpus-mini") (py "*.txt"))).
  { unfold CORPORA_FILES, corpora_files_listed. cbn [map snd concat].
    rewrite app_nil_r. reflexivity. }
  split.
  - intros H. unfold get_corpus_file. rewrite Hall.
    change (pystr_eqb (py "ALL") (py "ALL")) with true. cbn iota. now rewrite H.
  - intros p -> H. unfold get_corpus_file. rewrite Hall.
    change (pystr_eqb (py "ALL") (py "ALL")) with true. cbn iota. now rewrite H.
Qed.

End CorporaFacts.

Section RawSentenceFacts.
Variable db : unicode_db.
Variable read_lines : pystr -> option (list pystr).



End RawSentenceFacts.

(** * The rename command *)

Section RenameCommandFacts.
Variable LOG_DIR : pystr.
Variable db : unicode_db.
Variable exn_text : exn -> pystr.
Variable format_minute : pystr -> option pystr.

(** X27.  With a new name that is empty or all whitespace the rename
    command prints one error and does nothing else: it does not even list
    the sessions.  Whenever it returns, the storage is as it was, unless
    [rename_session_file] succeeded for the id the command resolved, and then
    the storage is the one that call left. *)
Theorem rename_command_effect (st : storage) (sid new_name : pystr) :
  (strip (is_space db) new_name = [] ->
   rename_session_command LOG_DIR db exn_text format_minute st sid new_name
   = Ok (st, [PrintError (py "B" ++ u 322 ++ u 261 ++ py "d: Nowa nazwa nie mo" ++ u 380
                          ++ py "e by" ++ u 263 ++ py " pusta.")]))
  /\ (forall st' log,
        rename_session_command LOG_DIR db exn_text format_minute st sid new_name
        = Ok (st', log) ->
        st' = st
        \/ exists sessions target name,
             list_sessions LOG_DIR exn_text format_minute st = Ok sessions
             /\ find_target sessions sid = Ok (PStr target)
             /\ rename_session_file LOG_DIR db exn_text st target new_name
                = (st', (true, None, Some name))).
Proof.
  split.
  - intros H. unfold rename_session_command.
    destruct new_name as [|c t]; [reflexivity|]. now rewrite H.
  - intros st' log. unfold rename_session_command.
    destruct new_name as [|c t]; [intros H; injection H as <- _; now left|].
    destruct (strip (is_space db) (c :: t)) as [|c' t'];
      [intros H; injection H as <- _; now left|].
    destruct (list_sessions LOG_DIR exn_text format_minute st) as [sessions|e] eqn:Hl;
      [|discriminate].
    cbn [bind]. destruct (find_target sessions sid) as [target|e] eqn:Ht; [|discriminate].
    cbn [bind]. destruct (truthy target); cbn [negb];
      [|intros H; injection H as <- _; now left].
    destruct target as [| | |target| | |]; try discriminate.
    destruct (rename_session_file LOG_DIR db exn_text st target (c :: t))
      as [st1 [[ok err] name]] eqn:Hr.
    destruct (rename_outcomes_aux LOG_DIR db exn_text _ _ _ _ _ _ _ Hr) as [Hfalse Htrue].
    destruct ok; intros H; injection H as <- _.
    + right. destruct (Htrue eq_refl) as [-> [-> _]].
      exists sessions, target, (sanitize db 50 (c :: t)). auto.
    + left. now destruct (Hfalse eq_refl).
Qed.

(** X28.  The command takes the text it is given as a prefix of a session
    id: when the id of the first listed session starts with it, that session
    is the one renamed, whatever follows in the listing; the empty text is a
    prefix of every id. *)
Theorem rename_command_resolves_prefix (st : storage) (sid new_name target : pystr)
  (entry : pyval) (rest : list pyval) :
  list_sessions LOG_DIR exn_text format_minute st = Ok (entry :: rest) ->
  py_getitem entry (py "id") = Ok (PStr target) ->
  target <> [] ->
  startswith target sid = true ->
  strip (is_space db) new_name <> [] ->
  exists log,
    rename_session_command LOG_DIR db exn_text format_minute st sid new_name
    = Ok (fst (rename_session_file LOG_DIR db exn_text st target new_name), log).
Proof.
  intros Hlist Hid Hne Hpre Hname. unfold rename_session_command.
  destruct new_name as [|c t]; [now cbn in Hname|].
  destruct (strip (is_space db) (c :: t)) as [|c' t']; [contradiction|].
  rewrite Hlist. cbn [bind find_target]. unfold session_matches. rewrite Hid.
  cbn [bind py_eq_str]. rewrite Hpre.
  assert (Hend : exists log,
             (if negb (truthy (PStr target)) then
                Ok (st, [PrintError (py "B" ++ u 322 ++ u 261
                                     ++ py "d: Nie znaleziono sesji o ID lub nazwie: " ++ sid);
                         PrintInfo (py "U" ++ u 380 ++ py "yj /session list aby zobaczy" ++ u 263
                                    ++ py " dost" ++ u 281 ++ py "pne sesje.")])
              else
                match rename_session_file LOG_DIR db exn_text st target (c :: t) with
                | (st', (true, _, sanitized_name)) =>
                    Ok (st',
                        [PrintInfo ([10] ++ u 10003 ++ py " Zmieniono nazw" ++ u 281
                                    ++ py " sesji:");
                         PrintInfo (py "  Stara nazwa: "
                                    ++ get_session_display_name LOG_DIR st target);
                         PrintInfo (py "  Nowa nazwa:  "
                                    ++ match sanitized_name with
                                       | Some n => n
                                       | None => py "None"
                                       end);
                         PrintInfo (py "  ID sesji:    " ++ slice_to 8 target ++ py "...")])
                | (st', (false, error, _)) =>
                    Ok (st',
                        [PrintError (py "B" ++ u 322 ++ u 261
                                     ++ py "d podczas zmiany nazwy sesji: "
                                     ++ match error with Some e => e | None => py "None" end)])
                end)
             = Ok (fst (rename_session_file LOG_DIR db exn_text st target (c :: t)), log)).
  { destruct target as [|x target]; [contradiction|]. cbn [truthy negb].
    destruct (rename_session_file LOG_DIR db exn_text st (x :: target) (c :: t))
      as [st1 [[[|] err] name]]; cbn [fst]; eauto. }
  destruct (pystr_eqb target sid); cbn [bind]; exact Hend.
Qed.

End RenameCommandFacts.

(** * The further properties on the sample data *)

Lemma remove_found_file_witness :
  exists st',
    remove_session_file sample_dir sample_exn_text two_names sample_id = (st', (true, None))
    /\ dir_present st' = true
    /\ path_exists sample_dir st' (log_path sample_dir (py "Hello_world_abcdef12.json")) = false
    /\ forall m, log_path sample_dir m <> log_path sample_dir (py "Hello_world_abcdef12.json") ->
         lookup_file m (dir_entries st') = lookup_file m (dir_entries two_names).
Proof.
  apply (remove_found_file sample_dir sample_exn_text two_names sample_id
           (log_path sample_dir (py "Hello_world_abcdef12.json"))).
  reflexivity.
Defined.

Lemma remove_leaves_current_format_witness :
  exists st' cur',
    remove_session_file sample_dir sample_exn_text both_formats sample_id = (st', (true, None))
    /\ path_exists sample_dir st' (log_path sample_dir (sample_id ++ py "-log.json")) = false
    /\ find_session_file sample_dir st' sample_id = Some (log_path sample_dir cur')
    /\ endswith cur' (py "_" ++ slice_to 8 sample_id ++ py ".json") = true
    /\ lookup_file cur' (dir_entries st') = lookup_file cur' (dir_entries both_formats)
    /\ In cur' (listed_names both_formats).
Proof.
  apply (remove_leaves_current_format sample_dir sample_exn_text both_formats sample_id
           (py "Hello_world_abcdef12.json")).
  - reflexivity.
  - left. reflexivity.
  - right. left. reflexivity.
  - reflexivity.
  - vm_compute. discriminate.
Defined.




Lemma missing_directory_witness :
  find_session_file sample_dir missing_dir sample_id = None
  /\ list_sessions sample_dir sample_exn_text sample_format_minute missing_dir = Raise OSError
  /\ save_session_history sample_dir latin_db sample_clock sample_exn_text
       {| fs := missing_dir; ticks := 0 |} sample_id (universal_of_turns sample_turns)
       (py "You are Azor.") (py "claude-2.1")
     = Ok ({| fs := missing_dir; ticks := 2 |},
           (false,
            Some (py "Error writing to file sessions/Hello_world_abcdef12.json: error"))).
Proof.
  destruct (missing_directory sample_dir latin_db sample_clock sample_exn_text
              sample_format_minute missing_dir 0 sample_id (py "You are Azor.")
              (py "claude-2.1") (py "notes") sample_turns)
    as [Hf [_ [_ [_ [_ [Hl Hs]]]]]].
  - reflexivity.
  - split; [exact Hf|]. split; [exact Hl|]. apply Hs. simpl. lia.
Defined.

Lemma rename_outcomes_witness :
  rename_session_file sample_dir latin_db sample_exn_text two_names sample_id
    (py " Hello, world! ")
  = (two_names, (true, None, Some (py "Hello_world")))
  /\ sanitize latin_db 50 (py " Hello, world! ") <> []
  /\ find_session_file sample_dir two_names sample_id <> None.
Proof.
  split; [reflexivity|].
  destruct (rename_outcomes sample_dir latin_db sample_exn_text two_names two_names sample_id
              (py " Hello, world! ") true None (Some (py "Hello_world")) eq_refl) as [_ H].
  destruct (H eq_refl) as [_ [_ H']]. exact H'.
Defined.

Lemma rename_moves_file_witness :
  exists st',
    rename_session_file sample_dir latin_db sample_exn_text two_names sample_id (py "My chat")
    = (st', (true, None, Some (sanitize latin_db 50 (py "My chat"))))
    /\ lookup_file (sanitize latin_db 50 (py "My chat") ++ py "_" ++ slice_to 8 sample_id
                    ++ py ".json") (dir_entries st')
       = lookup_file (py "Hello_world_abcdef12.json") (dir_entries two_names)
    /\ lookup_file (py "Hello_world_abcdef12.json") (dir_entries st') = None
    /\ (forall m, m <> py "Hello_world_abcdef12.json" ->
          m <> sanitize latin_db 50 (py "My chat") ++ py "_" ++ slice_to 8 sample_id
               ++ py ".json" ->
          lookup_file m (dir_entries st') = lookup_file m (dir_entries two_names))
    /\ length (dir_entries st') = length (dir_entries two_names).
Proof.
  apply (rename_moves_file sample_dir latin_db sample_exn_text two_names sample_id
           (py "My chat") (py "Hello_world_abcdef12.json")).
  - repeat constructor; vm_compute; intuition discriminate.
  - reflexivity.
  - vm_compute. discriminate.
  - reflexivity.
Defined.


Lemma listing_entry_of_saved_record_witness :
  session_entry sample_dir sample_exn_text sample_format_minute two_names
    (py "Hello_world_abcdef12.json", None, Some (py "Hello_world"))
  = readable_entry sample_format_minute sample_id (py "Hello_world") 2 (sample_clock 1).
Proof.
  apply (listing_entry_of_saved_record sample_dir sample_clock sample_exn_text
           sample_format_minute two_names (py "Hello_world_abcdef12.json") sample_id
           (py "claude-2.1") (py "You are Azor.") None (Some (py "Hello_world"))
           [(py "user", py "Hello world")] (py "model", py "Hi!") 0).
  - reflexivity.
  - reflexivity.
Defined.

Lemma empty_history_listed_as_error_witness :
  exists w' f,
    save_session_history sample_dir latin_db sample_clock sample_exn_text
      {| fs := empty_dir; ticks := 0 |} sample_id (universal_of_turns silent_turns)
      (py "You are Azor.") (py "claude-2.1")
    = Ok (w', (true, None))
    /\ lookup_file f (dir_entries (fs w'))
       = Some (Some (session_record sample_id (py "claude-2.1") (py "You are Azor.") []))
    /\ load_session_history sample_dir (fs w') sample_id = Ok ([], None)
    /\ forall old friendly,
         session_entry sample_dir sample_exn_text sample_format_minute (fs w')
           (f, old, friendly)
         = failed_session_entry sample_exn_text f old friendly IndexError.
Proof.
  apply (empty_history_listed_as_error sample_dir latin_db sample_clock sample_exn_text
           sample_format_minute empty_dir 0 sample_id (py "You are Azor.") (py "claude-2.1")
           silent_turns).
  - reflexivity.
  - simpl. lia.
  - reflexivity.
Defined.


Lemma apology_is_sent_again_witness :
  build_messages (_history (fst (send_message failing_session (py "Are you there?"))))
  = Ok (messages_of sample_turns
        ++ [(py "user", PStr (py "Are you there?")); (py "assistant", PStr err_text)]).
Proof.
  apply (apology_is_sent_again failing_session (py "Are you there?") failing_client
           sample_turns).
  - reflexivity.
  - reflexivity.
  - intros p. exists OSError. reflexivity.
Defined.

Lemma rename_command_resolves_prefix_witness :
  exists log,
    rename_session_command sample_dir latin_db sample_exn_text sample_format_minute two_names
      [] (py "My chat")
    = Ok (fst (rename_session_file sample_dir latin_db sample_exn_text two_names sample_id
                 (py "My chat")), log).
Proof.
  eapply (rename_command_resolves_prefix sample_dir latin_db sample_exn_text
            sample_format_minute two_names [] (py "My chat") sample_id).
  - vm_compute. reflexivity.
  - reflexivity.
  - vm_compute. discriminate.
  - reflexivity.
  - vm_compute. discriminate.
Defined.
